(** * monmon: the monitor engine, embedded and verified

    A shallow embedding of [monmon/base.py] (the lifecycle controller
    [BaseMonitor]), [monmon/monitors/local.py] (the pattern-matching
    evaluator [LocalMonitor]), [monmon/exceptions.py] and
    [monmon/types.py].

    Conventions of the embedding.
    - A Python [str] is a [string]; a character stands for the code point
      of the same number, so the texts covered are those over code points
      below 256.  [lower], [strip] and [int] follow Python on that range.
    - [content] is [Any] in the source and is only ever passed to [str()];
      it is a type parameter with a [Stringify] instance.
    - A [threading.Event] is the boolean it wraps.
    - A method is a function in the monad [M]: it takes the monitor object,
      returns the object as the method left it, and either a value or the
      exception that escaped.  Mutations made before a [raise] persist.
    - A dict is a [gmap]. *)

From Stdlib Require Import ZArith QArith String Ascii List Lia Bool.
From Stdlib Require Import DecimalString DecimalZ DecimalPos DecimalFacts.
From stdpp Require Import base option list strings gmap.

Open Scope string_scope.
Open Scope Z_scope.

(** ** Python string primitives *)

Module Py.

(** [c.lower()] for one code point below 256: A-Z, and the Latin-1 capitals
    U+00C0-U+00DE except the multiplication sign U+00D7. *)
Definition lower_char (c : ascii) : ascii :=
  let n := N_of_ascii c in
  if ((65 <=? n) && (n <=? 90) || (192 <=? n) && (n <=? 222) && negb (n =? 215))%N
  then ascii_of_N (n + 32) else c.

(** [s.lower()] *)
Fixpoint lower (s : string) : string :=
  match s with
  | EmptyString => EmptyString
  | String c s' => String (lower_char c) (lower s')
  end.

(** [s.startswith(p)] *)
Fixpoint startswith (s p : string) {struct p} : bool :=
  match p, s with
  | EmptyString, _ => true
  | String _ _, EmptyString => false
  | String a p', String b s' => Ascii.eqb a b && startswith s' p'
  end.

(** [needle in hay] on strings: [needle] starts at some position of [hay]
    (the empty needle is found in every string). *)
Fixpoint str_in (needle hay : string) : bool :=
  startswith hay needle ||
  match hay with
  | EmptyString => false
  | String _ hay' => str_in needle hay'
  end.

(** [s.split(sep)] for a separator of one character, which is the only
    use the monitor makes of it. *)
Fixpoint split (sep : ascii) (s : string) : list string :=
  match s with
  | EmptyString => [EmptyString]
  | String c s' =>
      if Ascii.eqb c sep then EmptyString :: split sep s'
      else match split sep s' with
           | [] => [String c EmptyString]
           | piece :: pieces => String c piece :: pieces
           end
  end.

(** [c.isspace()] below 256. *)
Definition isspace (c : ascii) : bool :=
  let n := N_of_ascii c in
  ((9 <=? n) && (n <=? 13) || (28 <=? n) && (n <=? 32) || (n =? 133) || (n =? 160))%N.

Fixpoint lstrip (s : string) : string :=
  match s with
  | EmptyString => EmptyString
  | String c s' => if isspace c then lstrip s' else s
  end.

Fixpoint rstrip (s : string) : string :=
  match s with
  | EmptyString => EmptyString
  | String c s' =>
      match rstrip s' with
      | EmptyString => if isspace c then EmptyString else String c EmptyString
      | r => String c r
      end
  end.

(** [s.strip()] *)
Definition strip (s : string) : string := rstrip (lstrip s).

Definition isdigit (c : ascii) : bool :=
  let n := N_of_ascii c in ((48 <=? n) && (n <=? 57))%N.

Definition digit_value (c : ascii) : Z := Z.of_N (N_of_ascii c) - 48.

(** The digit part of an integer literal: decimal digits, with single
    underscores allowed between two digits.  [after_digit] tells whether
    the previous character was a digit. *)
Fixpoint int_digits (s : string) (acc : Z) (after_digit : bool) : option Z :=
  match s with
  | EmptyString => if after_digit then Some acc else None
  | String c s' =>
      if isdigit c then int_digits s' (10 * acc + digit_value c) true
      else if Ascii.eqb c "_" && after_digit then int_digits s' acc false
      else None
  end.

(** [int(s)] in base 10: surrounding whitespace is dropped, one sign is
    accepted; [None] stands for [ValueError].  Integers are unbounded, and
    the interpreter's optional cap on the length of a numeral is left
    out. *)
Definition int (s : string) : option Z :=
  match strip s with
  | String "-" digits => Z.opp <$> int_digits digits 0 false
  | String "+" digits => int_digits digits 0 false
  | digits => int_digits digits 0 false
  end.

(** [str(n)] for an integer. *)
Definition str_of_int (n : Z) : string := NilZero.string_of_int (Z.to_int n).

End Py.

(** The [__str__] protocol: what [str(x)] returns. *)
Class Stringify (A : Type) := str : A -> string.

#[export] Instance stringify_str : Stringify string := fun s => s.
#[export] Instance stringify_int : Stringify Z := Py.str_of_int.
#[export] Instance stringify_bool : Stringify bool :=
  fun b => if b then "True" else "False".
#[export] Instance stringify_optional `{Stringify A} : Stringify (option A) :=
  fun o => match o with Some a => str a | None => "None" end.

(** ** Exceptions ([monmon/exceptions.py]) *)

(** [TerminationConditionMet] with its two attributes, and the two built-in
    exceptions the counting rule catches. *)
Inductive exn : Type :=
  | TerminationConditionMet (condition : string) (details : option string)
  | ValueError
  | IndexError.

(** The message [TerminationConditionMet.__init__] builds; [if details:]
    is false for [None] and for the empty string. *)
Definition message (e : exn) : string :=
  match e with
  | TerminationConditionMet condition details =>
      let message := "Termination condition met: " ++ condition in
      match details with
      | Some (String c d) => message ++ " - " ++ String c d
      | _ => message
      end
  | ValueError => "ValueError"
  | IndexError => "IndexError"
  end.

Inductive result (A : Type) : Type :=
  | Ok (a : A)
  | Raise (e : exn).
Arguments Ok {A} a.
Arguments Raise {A} e.

(** ** Data model ([monmon/types.py], [BaseMonitor.__init__]) *)

Section Monitor.

Context {Content : Type} `{!Stringify Content}.

(** [LogEntry]; the timestamp is a clock reading the monitor never
    inspects. *)
Record LogEntry : Type := {
  role : string;
  content : Content;
  timestamp : Q;
}.

(** The attributes of a monitor object.  [notified] and [stdout] are the
    two output channels: the conditions handed to the notification hook,
    and the lines printed. *)
Record BaseMonitor : Type := {
  _termination_flag : bool;
  _pause_flag : bool;
  _resume_flag : bool;
  _permission_granted : option bool;
  _logs : list LogEntry;
  _current_permission_condition : option string;
  _conditions : gmap string (list string);
  notified : list string;
  stdout : list string;
}.

(** A method body: object in, object out, value or escaping exception. *)
Definition M (A : Type) : Type := BaseMonitor -> BaseMonitor * result A.

Definition ret {A} (a : A) : M A := fun self => (self, Ok a).

Definition bind {A B} (m : M A) (k : A -> M B) : M B :=
  fun self =>
    match m self with
    | (self', Ok a) => k a self'
    | (self', Raise e) => (self', Raise e)
    end.

Definition raise {A} (e : exn) : M A := fun self => (self, Raise e).

(** [try: body  except (ValueError, IndexError): pass] *)
Definition try_except_pass (body : M unit) : M unit :=
  fun self =>
    match body self with
    | (self', Raise ValueError) | (self', Raise IndexError) => (self', Ok tt)
    | r => r
    end.

Definition get {A} (f : BaseMonitor -> A) : M A := fun self => (self, Ok (f self)).

Definition modify (f : BaseMonitor -> BaseMonitor) : M unit :=
  fun self => (f self, Ok tt).

End Monitor.

Arguments LogEntry Content : clear implicits.
Arguments BaseMonitor Content : clear implicits.
Arguments M Content A : clear implicits.

Notation "x <- m ;; k" := (bind m (fun x => k))
  (at level 100, m at next level, right associativity).
Notation "m ;; k" := (bind m (fun _ => k))
  (at level 100, right associativity).

(** Python list slices with negative bounds. *)

(** [l[-n:]] for [n > 0]: the last [n] items, all of them when there are
    fewer. *)
Definition last_n {A} (n : nat) (l : list A) : list A :=
  drop (length l - n) l.

(** [l[-a:-b]] for [a, b > 0]. *)
Definition slice_from_end {A} (a b : nat) (l : list A) : list A :=
  take ((length l - b) - (length l - a)) (drop (length l - a) l).

(** ** The lifecycle controller ([monmon/base.py]) *)

Section BaseMonitor.

Context {Content : Type} `{!Stringify Content}.

#[local] Abbreviation Monitor := (BaseMonitor Content).
#[local] Abbreviation Entry := (LogEntry Content).

Definition set_termination_flag (b : bool) (self : Monitor) : Monitor :=
  {| _termination_flag := b;
     _pause_flag := _pause_flag self;
     _resume_flag := _resume_flag self;
     _permission_granted := _permission_granted self;
     _logs := _logs self;
     _current_permission_condition := _current_permission_condition self;
     _conditions := _conditions self;
     notified := notified self;
     stdout := stdout self |}.

Definition set_pause_flag (b : bool) (self : Monitor) : Monitor :=
  {| _termination_flag := _termination_flag self;
     _pause_flag := b;
     _resume_flag := _resume_flag self;
     _permission_granted := _permission_granted self;
     _logs := _logs self;
     _current_permission_condition := _current_permission_condition self;
     _conditions := _conditions self;
     notified := notified self;
     stdout := stdout self |}.

Definition set_resume_flag (b : bool) (self : Monitor) : Monitor :=
  {| _termination_flag := _termination_flag self;
     _pause_flag := _pause_flag self;
     _resume_flag := b;
     _permission_granted := _permission_granted self;
     _logs := _logs self;
     _current_permission_condition := _current_permission_condition self;
     _conditions := _conditions self;
     notified := notified self;
     stdout := stdout self |}.

Definition set_permission_granted (g : option bool) (self : Monitor) : Monitor :=
  {| _termination_flag := _termination_flag self;
     _pause_flag := _pause_flag self;
     _resume_flag := _resume_flag self;
     _permission_granted := g;
     _logs := _logs self;
     _current_permission_condition := _current_permission_condition self;
     _conditions := _conditions self;
     notified := notified self;
     stdout := stdout self |}.

Definition set_logs (l : list Entry) (self : Monitor) : Monitor :=
  {| _termination_flag := _termination_flag self;
     _pause_flag := _pause_flag self;
     _resume_flag := _resume_flag self;
     _permission_granted := _permission_granted self;
     _logs := l;
     _current_permission_condition := _current_permission_condition self;
     _conditions := _conditions self;
     notified := notified self;
     stdout := stdout self |}.

Definition set_current_permission_condition (c : option string) (self : Monitor) : Monitor :=
  {| _termination_flag := _termination_flag self;
     _pause_flag := _pause_flag self;
     _resume_flag := _resume_flag self;
     _permission_granted := _permission_granted self;
     _logs := _logs self;
     _current_permission_condition := c;
     _conditions := _conditions self;
     notified := notified self;
     stdout := stdout self |}.

Definition set_notified (l : list string) (self : Monitor) : Monitor :=
  {| _termination_flag := _termination_flag self;
     _pause_flag := _pause_flag self;
     _resume_flag := _resume_flag self;
     _permission_granted := _permission_granted self;
     _logs := _logs self;
     _current_permission_condition := _current_permission_condition self;
     _conditions := _conditions self;
     notified := l;
     stdout := stdout self |}.

Definition set_stdout (l : list string) (self : Monitor) : Monitor :=
  {| _termination_flag := _termination_flag self;
     _pause_flag := _pause_flag self;
     _resume_flag := _resume_flag self;
     _permission_granted := _permission_granted self;
     _logs := _logs self;
     _current_permission_condition := _current_permission_condition self;
     _conditions := _conditions self;
     notified := notified self;
     stdout := l |}.

(** [print(line)] *)
Definition print (line : string) : M Content unit :=
  modify (fun self => set_stdout (stdout self ++ [line]) self).

(** [for x in l: body(x)], left by the first exception. *)
Fixpoint for_each {A} (l : list A) (body : A -> M Content unit) : M Content unit :=
  match l with
  | [] => ret tt
  | x :: l' => body x ;; for_each l' body
  end.

(** [_load_conditions]: the parsed configuration file, or the two empty
    lists when the file does not exist. *)
Definition _load_conditions (config_file : option (gmap string (list string)))
  : gmap string (list string) :=
  match config_file with
  | None => {[ "terminate_if" := []; "ask_permission_if" := [] ]}
  | Some conditions => conditions
  end.

(** [__init__] *)
Definition __init__ (config_file : option (gmap string (list string))) : Monitor :=
  {| _termination_flag := false;
     _pause_flag := false;
     _resume_flag := false;
     _permission_granted := None;
     _logs := [];
     _current_permission_condition := None;
     _conditions := _load_conditions config_file;
     notified := [];
     stdout := [] |}.

(** [self._conditions.get(key, [])] *)
Definition conditions_get (key : string) (self : Monitor) : list string :=
  default [] (_conditions self !! key).

(** [__enter__], without the start of the background thread. *)
Definition __enter__ : M Content unit :=
  modify (set_pause_flag false) ;;
  modify (set_resume_flag false) ;;
  modify (set_termination_flag false).

(** [__exit__], without the join. *)
Definition __exit__ : M Content bool :=
  modify (set_termination_flag true) ;;
  ret false.

(** [log] blocks in [self._resume_flag.wait()] when the monitor is paused.
    The call is cut at that point: [log] runs up to the wait and tells
    whether the caller has returned or is waiting; [log_resumed] is the
    rest of the body, run when the wait returns; [log_wait] is the wait
    itself, which can return only in an object whose resume flag is set. *)
Inductive log_progress : Type :=
  | Returned
  | Waiting.

Definition log (role : string) (content : Content) (now : Q) : M Content log_progress :=
  let log_entry := {| role := role; content := content; timestamp := now |} in
  modify (fun self => set_logs (_logs self ++ [log_entry]) self) ;;
  paused <- get _pause_flag ;;
  if paused : bool then
    print "Agent paused: Waiting for permission..." ;;
    ret Waiting
  else ret Returned.

Definition log_resumed : M Content unit :=
  granted <- get _permission_granted ;;
  match granted with
  | Some true => ret tt
  | Some false | None =>
      condition <- get _current_permission_condition ;;
      raise (TerminationConditionMet ("Permission denied for: " ++ str condition) None)
  end.

Definition log_wait (self : Monitor) : option (Monitor * result unit) :=
  if _resume_flag self then Some (log_resumed self) else None.

(** [terminate] *)
Definition terminate (condition : string) (details : option string) : M Content unit :=
  modify (set_termination_flag true) ;;
  raise (TerminationConditionMet condition details).

(** [_notify_permission_needed]: the default hook prints. *)
Definition _notify_permission_needed (condition : string) : M Content unit :=
  modify (fun self => set_notified (notified self ++ [condition]) self) ;;
  print ("Permission required: " ++ condition).

(** [request_permission] *)
Definition request_permission (condition : string) : M Content unit :=
  modify (set_current_permission_condition (Some condition)) ;;
  modify (set_pause_flag true) ;;
  modify (set_resume_flag false) ;;
  _notify_permission_needed condition.

(** [grant_permission] *)
Definition grant_permission (granted : bool) : M Content unit :=
  modify (set_permission_granted (Some granted)) ;;
  modify (set_resume_flag true) ;;
  modify (set_pause_flag false).

Section Hooks.

(** The two abstract methods. *)
Variable check_termination_conditions : M Content unit.
Variable check_permission_conditions : M Content unit.

(** One pass of the body of the [while] of [_monitor_loop]. *)
Definition _monitor_loop_body : M Content unit :=
  check_termination_conditions ;;
  paused <- get _pause_flag ;;
  if paused : bool then ret tt else check_permission_conditions.

(** [_monitor_loop] run alone for at most [polls] passes. *)
Fixpoint _monitor_loop (polls : nat) : M Content unit :=
  match polls with
  | O => ret tt
  | S polls' =>
      stop <- get _termination_flag ;;
      if stop : bool then ret tt else _monitor_loop_body ;; _monitor_loop polls'
  end.

End Hooks.

End BaseMonitor.

(** ** The pattern-matching evaluator ([monmon/monitors/local.py]) *)

Section LocalMonitor.

Context {Content : Type} `{!Stringify Content}.

#[local] Abbreviation Monitor := (BaseMonitor Content).
#[local] Abbreviation Entry := (LogEntry Content).

(** [l[i]], raising [IndexError] out of range. *)
Definition item {A} (l : list A) (i : nat) : M Content A :=
  match l !! i with
  | Some x => ret x
  | None => raise IndexError
  end.

(** [l[-1]], raising [IndexError] on the empty list. *)
Definition last_item {A} (l : list A) : M Content A :=
  match last l with
  | Some x => ret x
  | None => raise IndexError
  end.

(** [int(s)], raising [ValueError]. *)
Definition int_of (s : string) : M Content Z :=
  match Py.int s with
  | Some n => ret n
  | None => raise ValueError
  end.

(** [sum(1 for log in logs if log["role"] == "assistant")] *)
Definition action_count (logs : list Entry) : Z :=
  Z.of_nat (length (filter (fun log => role log = "assistant") logs)).

(** [_detect_loop] *)
Definition _detect_loop (self : Monitor) : bool :=
  if (length (_logs self) <? 6)%nat then false
  else
    let actions := filter (fun log => role log = "assistant") (last_n 6 (_logs self)) in
    if (length actions <? 6)%nat then false
    else
      let last_3 := (fun a => str (content a)) <$> last_n 3 actions in
      let prev_3 := (fun a => str (content a)) <$> slice_from_end 6 3 actions in
      bool_decide (last_3 = prev_3).

(** The body of the loop over [terminate_if], for one [condition].  The
    [return] statements that follow the calls of [terminate] are never
    reached, since [terminate] raises. *)
Definition check_condition (condition : string) : M Content unit :=
  logs <- get _logs ;;
  let recent_logs := last_n 10 logs in
  for_each recent_logs (fun log =>
    let log_str := str (content log) in
    if Py.str_in (Py.lower condition) (Py.lower log_str)
    then terminate condition (Some ("Detected in log: " ++ log_str))
    else ret tt) ;;
  looping <- (if String.eqb condition "agent seems stuck in a loop"
              then get _detect_loop else ret false) ;;
  (if looping : bool then terminate condition None else ret tt) ;;
  if Py.startswith condition "the number of actions is >" then
    try_except_pass (
      piece <- item (Py.split ">" condition) 1 ;;
      limit <- int_of (Py.strip piece) ;;
      logs <- get _logs ;;
      if action_count logs >? limit then terminate condition None else ret tt)
  else ret tt.

(** [_check_termination_conditions] *)
Definition _check_termination_conditions : M Content unit :=
  logs <- get _logs ;;
  match logs with
  | [] => ret tt
  | _ :: _ =>
      conditions <- get (conditions_get "terminate_if") ;;
      for_each conditions check_condition
  end.

(** The loop over [ask_permission_if], left by [return] at the first
    match. *)
Fixpoint ask_first_match (log_str : string) (conditions : list string) : M Content unit :=
  match conditions with
  | [] => ret tt
  | condition :: rest =>
      if Py.str_in (Py.lower condition) (Py.lower log_str)
      then request_permission condition
      else ask_first_match log_str rest
  end.

(** [_check_permission_conditions] *)
Definition _check_permission_conditions : M Content unit :=
  logs <- get _logs ;;
  match logs with
  | [] => ret tt
  | _ :: _ =>
      last_log <- last_item logs ;;
      let log_str := str (content last_log) in
      conditions <- get (conditions_get "ask_permission_if") ;;
      ask_first_match log_str conditions
  end.

(** One poll of the background thread of a [LocalMonitor]. *)
Definition poll : M Content unit :=
  _monitor_loop_body _check_termination_conditions _check_permission_conditions.

(** The monitor object after [polls] further polls of the background
    thread; a poll that raises ends the thread and leaves its writes. *)
Fixpoint after_polls (polls : nat) (self : Monitor) : Monitor :=
  match polls with
  | O => self
  | S polls' => after_polls polls' (fst (poll self))
  end.

End LocalMonitor.

(** A log entry with string content, logged at time 0. *)
Definition entry (role content : string) : LogEntry string :=
  {| role := role; content := content; timestamp := 0%Q |}.

(** A fresh monitor configured with the two rule lists. *)
Definition monitor_with (terminate_if ask_permission_if : list string)
    (logs : list (LogEntry string)) : BaseMonitor string :=
  set_logs logs
    (__init__ (Some {[ "terminate_if" := terminate_if;
                       "ask_permission_if" := ask_permission_if ]})).

(** ** Vocabulary of the statements *)

(** The two rule texts the evaluator treats specially. *)
Definition loop_rule : string := "agent seems stuck in a loop".
Definition count_prefix : string := "the number of actions is >".

(** [pattern] occurs in [text] when case is ignored: the lowercased
    pattern is a block of the lowercased text. *)
Definition occurs_in (pattern text : string) : Prop :=
  exists before after, Py.lower text = before ++ Py.lower pattern ++ after.

(** The test of the substring scan: [condition.lower() in log_str.lower()]. *)
Definition hit {Content} `{!Stringify Content}
    (condition : string) (log : LogEntry Content) : bool :=
  Py.str_in (Py.lower condition) (Py.lower (str (content log))).

(** The [details] the substring scan reports for the entry it stopped at. *)
Definition evidence {Content} `{!Stringify Content} (log : LogEntry Content) : option string :=
  Some ("Detected in log: " ++ str (content log)).

(** The threshold the counting branch reads off a rule:
    [int(condition.split(">")[1].strip())], [None] when either step
    raises. *)
Definition threshold (condition : string) : option Z :=
  piece ← Py.split ">" condition !! 1%nat; Py.int (Py.strip piece).

(** The counting rule as the configuration writes it for a threshold
    [n]. *)
Definition count_rule (n : Z) : string := count_prefix ++ " " ++ str n.

(** A literal rule: neither the loop rule nor a counting rule. *)
Definition literal (condition : string) : Prop :=
  condition <> loop_rule /\ Py.startswith condition count_prefix = false.

(** What [terminate condition details] leaves behind. *)
Definition terminated {Content} (self : BaseMonitor Content)
    (condition : string) (details : option string)
  : BaseMonitor Content * result unit :=
  (set_termination_flag true self, Raise (TerminationConditionMet condition details)).


Definition chars (s : string) : list ascii := list_ascii_of_string s.

(** ** Sessions used as concrete instances *)

(** Three termination rules; the second occurs in the newest entry, the
    third in the entry before it. *)
Definition facebook_session : BaseMonitor string :=
  monitor_with ["captcha"; "facebook.com"; "hello"] []
    [entry "user" "hello"; entry "assistant" "Let me check Facebook.com"].

(** Three permission rules; the first occurs in an older entry only, the
    other two in the newest entry. *)
Definition rm_session : BaseMonitor string :=
  monitor_with [] ["sudo"; "rm -rf"; "run"]
    [entry "assistant" "sudo make install"; entry "assistant" "I'll run rm -rf /"].

(** [rm_session] after the background thread has asked for permission. *)
Definition paused_session : BaseMonitor string :=
  fst (request_permission "rm -rf" rm_session).

(** An agent repeating three actions, the environment silent. *)
Definition repeating_session : BaseMonitor string :=
  monitor_with [loop_rule] []
    [entry "assistant" "A"; entry "assistant" "B"; entry "assistant" "C";
     entry "assistant" "A"; entry "assistant" "B"; entry "assistant" "C"].

(** The same agent with the environment answering each action, as the
    demo driver logs them. *)
Definition interleaved_session : BaseMonitor string :=
  monitor_with [loop_rule] []
    [entry "assistant" "A"; entry "user" "ok"; entry "assistant" "B"; entry "user" "ok";
     entry "assistant" "C"; entry "user" "ok"; entry "assistant" "A"; entry "user" "ok";
     entry "assistant" "B"; entry "user" "ok"; entry "assistant" "C"; entry "user" "ok"].

(** A user entry that quotes the loop rule. *)
Definition quoted_loop_session : BaseMonitor string :=
  monitor_with [loop_rule] []
    [entry "user" "Warning: the agent seems stuck in a loop"].

(** Counting sessions: the rule with threshold 3 and three, then four,
    assistant entries. *)
Definition three_actions_session : BaseMonitor string :=
  monitor_with [count_rule 3] []
    [entry "assistant" "one"; entry "user" "ok"; entry "assistant" "two";
     entry "assistant" "three"].

Definition four_actions_session : BaseMonitor string :=
  monitor_with [count_rule 3] []
    [entry "assistant" "one"; entry "user" "ok"; entry "assistant" "two";
     entry "assistant" "three"; entry "assistant" "four"].

(** A user entry that quotes the counting rule, and no assistant entry. *)
Definition quoted_count_session : BaseMonitor string :=
  monitor_with [count_rule 3] []
    [entry "user" "Stop when the number of actions is > 3"].

(** A counting rule with a threshold that is not a number, before a
    literal rule. *)
Definition lots_session : BaseMonitor string :=
  monitor_with ["the number of actions is > lots"; "facebook.com"] []
    [entry "assistant" "Let me check facebook.com"].

Definition quoted_lots_session : BaseMonitor string :=
  monitor_with ["the number of actions is > lots"] []
    [entry "user" "THE NUMBER OF ACTIONS IS > LOTS"].

(** Rules that would fire on any entry, and no entry. *)
Definition empty_session : BaseMonitor string :=
  monitor_with ["the number of actions is > -1"; ""] [""] [].

(** ** Sessions as sequences of calls *)

Section Session.

Context {Content : Type} `{!Stringify Content}.

(** One call on the monitor object, by whichever thread makes it: the
    caller logs (up to the wait) and goes on after a wait that returned,
    the background thread polls, the operator answers, the context manager
    enters and exits.  [terminate] and [request_permission] are reached
    through the poll, as in the code. *)
Inductive step : BaseMonitor Content -> BaseMonitor Content -> Prop :=
  | step_log (role : string) (content : Content) (now : Q) (self : BaseMonitor Content) :
      step self (fst (log role content now self))
  | step_log_resumed (self : BaseMonitor Content) (released : BaseMonitor Content * result unit) :
      log_wait self = Some released -> step self (fst released)
  | step_poll (self : BaseMonitor Content) :
      step self (fst (poll self))
  | step_grant (granted : bool) (self : BaseMonitor Content) :
      step self (fst (grant_permission granted self))
  | step_enter (self : BaseMonitor Content) :
      step self (fst (__enter__ self))
  | step_exit (self : BaseMonitor Content) :
      step self (fst (__exit__ self)).


(** No two assistant entries next to each other. *)
Definition answered (logs : list (LogEntry Content)) : Prop :=
  forall i first second,
    logs !! i = Some first -> logs !! S i = Some second ->
    role first = "assistant" -> role second <> "assistant".

End Session.

(** ** The demo driver ([demo.py]) *)

Module Demo.

(** [SimpleAgent.normal_actions] and [SimpleAgent.trigger_actions] *)
Definition normal_actions : list string :=
  ["I'm thinking about the problem...";
   "Let me analyze the data more carefully.";
   "I need more information to proceed.";
   "Let me try a different approach."].

Definition trigger_actions : list string :=
  ["I'll send an email to notify the admin.";
   "Let me check facebook.com for examples.";
   "I'll run some bash commands to fix this.";
   "I need to execute 'rm -rf /' to clean up."].

(** [random.choice(seq)], given the index the generator drew. *)
Definition choice (seq : list string) (drawn : nat) : string :=
  nth (drawn mod length seq) seq "".

(** [SimpleAgent.get_action]: the new [action_count] and the action.
    [chance] is the outcome of [random.random() < 0.2]. *)
Definition get_action (chance : bool) (drawn : nat) (action_count : nat) : nat * string :=
  let action_count := S action_count in
  if ((20 <? action_count) && (action_count <? 30))%nat
  then (action_count, "I'm stuck and don't know what to do next.")
  else if chance then (action_count, choice trigger_actions drawn)
  else (action_count, choice normal_actions drawn).

(** [SimpleEnvironment.step]: the new [step_count] and the observation. *)
Definition step (drawn : nat) (action : string) (step_count : nat) : nat * string :=
  let step_count := S step_count in
  if (step_count mod 15 =? 0)%nat
  then (step_count, "Please solve this CAPTCHA to continue.")
  else
    let responses :=
      ["Received: " ++ action;
       "Processing your request...";
       "Continue with your task.";
       "Step " ++ str (Z.of_nat step_count) ++ ": Action acknowledged."] in
    (step_count, choice responses drawn).

(** What one pass of the [while True] of [main] draws and reads off the
    clock. *)
Record Round : Type := {
  chance : bool;
  agent_draw : nat;
  env_draw : nat;
  action_time : Q;
  observation_time : Q;
}.

(** The entries [main] hands to [monitor.log], in order, over the given
    rounds: the action of the agent, then the answer of the environment. *)
Fixpoint entries (rounds : list Round) (action_count step_count : nat)
  : list (LogEntry string) :=
  match rounds with
  | [] => []
  | round :: rest =>
      let (action_count', a) := get_action (chance round) (agent_draw round) action_count in
      let (step_count', o) := step (env_draw round) a step_count in
      {| role := "assistant"; content := a; timestamp := action_time round |}
      :: {| role := "user"; content := o; timestamp := observation_time round |}
      :: entries rest action_count' step_count'
  end.

End Demo.

(** * Properties *)

(** ** The primitives on examples *)

Example lower_ex : Py.lower "Let Me Check FACEBOOK.com" = "let me check facebook.com".
Proof. reflexivity. Qed.
Example in_ex : Py.str_in "rm -rf" "I'll run rm -rf /" = true.
Proof. reflexivity. Qed.
Example in_empty : Py.str_in "" "" = true.
Proof. reflexivity. Qed.
Example split_ex : Py.split ">" "the number of actions is > 3" = ["the number of actions is "; " 3"].
Proof. reflexivity. Qed.
Example split_ex2 : Py.split ">" "a>>b>" = ["a"; ""; "b"; ""].
Proof. reflexivity. Qed.
Example strip_ex : Py.strip "  3 4  " = "3 4".
Proof. reflexivity. Qed.
Example int_ex1 : Py.int " -12 " = Some (-12).
Proof. reflexivity. Qed.
Example int_ex2 : Py.int "lots" = None.
Proof. reflexivity. Qed.
Example int_ex3 : Py.int "1_000" = Some 1000.
Proof. reflexivity. Qed.
Example int_ex4 : Py.int "1__0" = None /\ Py.int "_1" = None /\ Py.int "1_" = None /\ Py.int "" = None /\ Py.int "- 1" = None /\ Py.int "+7" = Some 7.
Proof. repeat split; reflexivity. Qed.
Example str_int_ex : str (-120) = "-120" /\ str 0 = "0" /\ str (Some 5) = "5".
Proof. repeat split; reflexivity. Qed.

Example facebook_scenario :
  _check_termination_conditions
    (monitor_with ["facebook.com"] [] [entry "user" "hello"; entry "user" "let me check facebook.com"])
  = terminated
      (monitor_with ["facebook.com"] [] [entry "user" "hello"; entry "user" "let me check facebook.com"])
      "facebook.com" (Some "Detected in log: let me check facebook.com").
Proof. reflexivity. Qed.

Example message_ex :
  message (TerminationConditionMet "facebook.com" (Some "Detected in log: x"))
  = "Termination condition met: facebook.com - Detected in log: x"
  /\ message (TerminationConditionMet "facebook.com" (Some ""))
    = "Termination condition met: facebook.com".
Proof. split; reflexivity. Qed.

(** ** Strings *)

Lemma append_cons (c : ascii) (s t : string) : String c s ++ t = String c (s ++ t).
Proof. reflexivity. Qed.

Lemma append_empty_l (s : string) : "" ++ s = s.
Proof. reflexivity. Qed.

Lemma startswith_app (p r : string) : Py.startswith (p ++ r) p = true.
Proof.
  induction p as [|c p IH]; [done|].
  rewrite append_cons. cbn [Py.startswith]. rewrite Ascii.eqb_refl. exact IH.
Qed.

Lemma startswith_inv (s p : string) :
  Py.startswith s p = true -> exists r, s = p ++ r.
Proof.
  revert s. induction p as [|c p IH]; intros s H.
  - exists s. reflexivity.
  - destruct s as [|d s]; [discriminate|].
    cbn [Py.startswith] in H. apply andb_true_iff in H as [Hc Hs].
    apply Ascii.eqb_eq in Hc. subst d.
    destruct (IH _ Hs) as [r ->]. exists r. reflexivity.
Qed.

(** [in] on strings finds exactly the blocks. *)
Lemma str_in_true (needle hay : string) :
  Py.str_in needle hay = true <-> exists before after, hay = before ++ needle ++ after.
Proof.
  split.
  - induction hay as [|c hay IH]; cbn [Py.str_in]; intros H.
    + apply orb_true_iff in H as [H|H]; [|discriminate].
      destruct needle; [|discriminate]. exists "", "". reflexivity.
    + apply orb_true_iff in H as [H|H].
      * apply startswith_inv in H as [r Hr]. exists "", r. exact Hr.
      * destruct (IH H) as (b & a & ->). exists (String c b), a. reflexivity.
  - intros (b & a & ->). induction b as [|c b IH].
    + rewrite append_empty_l.
      assert (Py.startswith (needle ++ a) needle = true) as H by apply startswith_app.
      destruct (needle ++ a); cbn [Py.str_in]; rewrite H; reflexivity.
    + rewrite append_cons. cbn [Py.str_in]. rewrite IH. apply orb_true_r.
Qed.

Lemma str_in_occurs (pattern text : string) :
  Py.str_in (Py.lower pattern) (Py.lower text) = true <-> occurs_in pattern text.
Proof. apply str_in_true. Qed.

Lemma str_in_not_occurs (pattern text : string) :
  Py.str_in (Py.lower pattern) (Py.lower text) = false <-> ~ occurs_in pattern text.
Proof.
  rewrite <- str_in_occurs. destruct (Py.str_in _ _); split; try done.
Qed.

(** ** The termination check, rule by rule *)

Section Termination.

Context {Content : Type} `{!Stringify Content}.

#[local] Abbreviation Monitor := (BaseMonitor Content).
#[local] Abbreviation Entry := (LogEntry Content).

Lemma hit_occurs (condition : string) (log : Entry) :
  hit condition log = true <-> occurs_in condition (str (content log)).
Proof. apply str_in_occurs. Qed.

Lemma hit_not_occurs (condition : string) (log : Entry) :
  hit condition log = false <-> ~ occurs_in condition (str (content log)).
Proof. apply str_in_not_occurs. Qed.

(** The substring scan stops at the first entry that contains the rule. *)
Lemma scan_find (condition : string) (recent_logs : list Entry) (self : Monitor) :
  for_each recent_logs (fun log =>
    let log_str := str (content log) in
    if Py.str_in (Py.lower condition) (Py.lower log_str)
    then terminate condition (Some ("Detected in log: " ++ log_str))
    else ret tt) self
  = match List.find (hit condition) recent_logs with
    | Some log => terminated self condition (evidence log)
    | None => (self, Ok tt)
    end.
Proof.
  induction recent_logs as [|log rest IH]; [reflexivity|].
  cbn [for_each List.find]. unfold bind at 1. fold (hit condition log).
  destruct (hit condition log); [reflexivity|].
  cbn. exact IH.
Qed.

(** The body of the rule loop, as a case analysis. *)
Lemma check_condition_cases (condition : string) (self : Monitor) :
  check_condition condition self =
  match List.find (hit condition) (last_n 10 (_logs self)) with
  | Some log => terminated self condition (evidence log)
  | None =>
      if String.eqb condition loop_rule && _detect_loop self
      then terminated self condition None
      else if Py.startswith condition count_prefix then
        match threshold condition with
        | Some limit =>
            if action_count (_logs self) >? limit
            then terminated self condition None
            else (self, Ok tt)
        | None => (self, Ok tt)
        end
      else (self, Ok tt)
  end.
Proof.
  unfold check_condition.
  unfold bind at 1. cbn [get]. unfold bind at 1. rewrite scan_find.
  destruct (List.find _ _) as [log|]; [reflexivity|].
  fold loop_rule count_prefix.
  unfold bind at 1.
  destruct (String.eqb condition loop_rule); cbn [get ret andb].
  - destruct (_detect_loop self); [reflexivity|].
    unfold bind at 1. cbn [ret].
    destruct (Py.startswith condition count_prefix); [|reflexivity].
    unfold try_except_pass, threshold, item, int_of, bind, get, ret, raise.
    destruct (Py.split ">" condition !! 1%nat) as [piece|]; cbn; [|reflexivity].
    destruct (Py.int (Py.strip piece)) as [limit|]; cbn; [|reflexivity].
    destruct (action_count (_logs self) >? limit); reflexivity.
  - unfold bind at 1. cbn [ret].
    destruct (Py.startswith condition count_prefix); [|reflexivity].
    unfold try_except_pass, threshold, item, int_of, bind, get, ret, raise.
    destruct (Py.split ">" condition !! 1%nat) as [piece|]; cbn; [|reflexivity].
    destruct (Py.int (Py.strip piece)) as [limit|]; cbn; [|reflexivity].
    destruct (action_count (_logs self) >? limit); reflexivity.
Qed.

(** A rule either lets the loop go on in the same object, or terminates
    with itself as the condition: no other exception leaves the body. *)
Lemma check_condition_outcome (condition : string) (self : Monitor) :
  check_condition condition self = (self, Ok tt) \/
  exists details, check_condition condition self = terminated self condition details.
Proof.
  rewrite check_condition_cases.
  destruct (List.find _ _); [right; eauto|].
  destruct (_ && _); [right; eauto|].
  destruct (Py.startswith _ _); [|by left].
  destruct (threshold _); [|by left].
  destruct (_ >? _); [right; eauto|by left].
Qed.

Lemma for_each_passed {A} (body : A -> M Content unit) (before rest : list A) (self : Monitor) :
  Forall (fun x => body x self = (self, Ok tt)) before ->
  for_each (before ++ rest) body self = for_each rest body self.
Proof.
  induction 1 as [|x before Hx _ IH]; [reflexivity|].
  cbn [app for_each]. unfold bind at 1. rewrite Hx. exact IH.
Qed.

Lemma for_each_stops {A} (body : A -> M Content unit) (x : A) (rest : list A)
    (self self' : Monitor) (e : exn) :
  body x self = (self', Raise e) ->
  for_each (x :: rest) body self = (self', Raise e).
Proof. intros Hx. cbn [for_each]. unfold bind. rewrite Hx. reflexivity. Qed.

Lemma for_each_goes_on {A} (body : A -> M Content unit) (x : A) (rest : list A)
    (self : Monitor) :
  body x self = (self, Ok tt) ->
  for_each (x :: rest) body self = for_each rest body self.
Proof. intros Hx. cbn [for_each]. unfold bind. rewrite Hx. reflexivity. Qed.

(** On a log that is not empty the check is the loop over [terminate_if]. *)
Lemma check_termination_nonempty (self : Monitor) :
  _logs self <> [] ->
  _check_termination_conditions self =
  for_each (conditions_get "terminate_if" self) check_condition self.
Proof.
  intros Hlogs. unfold _check_termination_conditions, bind, get.
  destruct (_logs self); [done|reflexivity].
Qed.

(** [List.find] against a split of the list at the first hit. *)
Lemma find_first {A} (p : A -> bool) (clean : list A) (x : A) (rest : list A) :
  Forall (fun y => p y = false) clean -> p x = true ->
  List.find p (clean ++ x :: rest) = Some x.
Proof.
  induction 1 as [|y clean Hy _ IH]; intros Hx; cbn [app List.find].
  - by rewrite Hx.
  - rewrite Hy. by apply IH.
Qed.

Lemma find_none {A} (p : A -> bool) (l : list A) :
  Forall (fun y => p y = false) l -> List.find p l = None.
Proof. induction 1 as [|y l Hy _ IH]; cbn [List.find]; [done|by rewrite Hy]. Qed.

End Termination.

(** ** The termination check: the claims *)

Section TerminationClaims.

Context {Content : Type} `{!Stringify Content}.

#[local] Abbreviation Monitor := (BaseMonitor Content).
#[local] Abbreviation Entry := (LogEntry Content).

(** [last_n n l] is the end of [l], of length [min n (length l)]. *)
Lemma last_n_suffix {A} (n : nat) (l : list A) :
  l = (take (length l - n) l ++ last_n n l)%list /\
  length (last_n n l) = Nat.min n (length l).
Proof.
  unfold last_n. split.
  - by rewrite take_drop.
  - rewrite length_drop. lia.
Qed.

Lemma no_hit_find (condition : string) (logs : list Entry) :
  Forall (fun log => ~ occurs_in condition (str (content log))) logs ->
  List.find (hit condition) logs = None.
Proof.
  intros Hno. apply find_none. eapply Forall_impl; [exact Hno|].
  intros log. apply hit_not_occurs.
Qed.

Lemma first_hit_find (condition : string) (clean : list Entry) (offending : Entry)
    (rest : list Entry) :
  Forall (fun log => ~ occurs_in condition (str (content log))) clean ->
  occurs_in condition (str (content offending)) ->
  List.find (hit condition) (clean ++ offending :: rest)%list = Some offending.
Proof.
  intros Hclean Hhit. apply find_first.
  - eapply Forall_impl; [exact Hclean|]. intros log. apply hit_not_occurs.
  - by apply hit_occurs.
Qed.

(** The loop reaches [rule] when the rules before it let it go on. *)
Lemma check_termination_reaches (self : Monitor) (before after : list string) (rule : string) :
  _logs self <> [] ->
  conditions_get "terminate_if" self = (before ++ rule :: after)%list ->
  Forall (fun earlier => check_condition earlier self = (self, Ok tt)) before ->
  _check_termination_conditions self =
  for_each (rule :: after) check_condition self.
Proof.
  intros Hlogs Hrules Hbefore.
  rewrite check_termination_nonempty, Hrules by done.
  by apply for_each_passed.
Qed.

Lemma counting_rule_not_loop_rule (rule : string) :
  Py.startswith rule count_prefix = true -> String.eqb rule loop_rule = false.
Proof.
  intros H. apply startswith_inv in H as [r ->]. reflexivity.
Qed.

Lemma literal_not_loop_rule (rule : string) :
  literal rule -> String.eqb rule loop_rule = false.
Proof. intros [Hne _]. by apply String.eqb_neq. Qed.

(** C2. On a log that is not empty the termination check takes the rules
    of [terminate_if] in the order of the list.  The first rule that does
    not let the loop go on, when it is found, ignoring case, in the
    stringified content of one of the (at most) 10 most recent entries,
    terminates the session with that rule as the condition and the content
    of the first such entry as evidence, whatever rules follow it.  A
    literal rule found in none of these 10 entries is passed over, whatever
    the older entries contain. *)
Theorem termination_first_hit_wins (self : Monitor)
    (before after : list string) (rule : string) :
  _logs self <> [] ->
  conditions_get "terminate_if" self = (before ++ rule :: after)%list ->
  Forall (fun earlier => check_condition earlier self = (self, Ok tt)) before ->
  (forall clean offending rest,
      last_n 10 (_logs self) = (clean ++ offending :: rest)%list ->
      Forall (fun log => ~ occurs_in rule (str (content log))) clean ->
      occurs_in rule (str (content offending)) ->
      _check_termination_conditions self =
      terminated self rule (Some ("Detected in log: " ++ str (content offending))))
  /\ (literal rule ->
      Forall (fun log => ~ occurs_in rule (str (content log))) (last_n 10 (_logs self)) ->
      _check_termination_conditions self = for_each after check_condition self).
Proof.
  intros Hlogs Hrules Hbefore.
  rewrite (check_termination_reaches self before after rule) by done.
  split.
  - intros clean offending rest Hwindow Hclean Hhit.
    apply for_each_stops. rewrite check_condition_cases, Hwindow.
    by rewrite first_hit_find.
  - intros Hliteral Hno. apply for_each_goes_on.
    rewrite check_condition_cases, no_hit_find by done.
    rewrite literal_not_loop_rule by done.
    destruct Hliteral as [_ ->]. reflexivity.
Qed.

(** C6, as the code has it.  The loop rule goes through the substring scan
    like every rule: found, ignoring case, in one of the 10 most recent
    entries it terminates the session with that entry as evidence.  Only
    when none of these entries contains its text does the loop heuristic
    decide: the session terminates, without details, exactly when
    [_detect_loop] holds, and otherwise the next rule is tried. *)
Theorem loop_rule_scan_then_heuristic (self : Monitor) (before after : list string) :
  _logs self <> [] ->
  conditions_get "terminate_if" self = (before ++ loop_rule :: after)%list ->
  Forall (fun earlier => check_condition earlier self = (self, Ok tt)) before ->
  (forall clean offending rest,
      last_n 10 (_logs self) = (clean ++ offending :: rest)%list ->
      Forall (fun log => ~ occurs_in loop_rule (str (content log))) clean ->
      occurs_in loop_rule (str (content offending)) ->
      _check_termination_conditions self =
      terminated self loop_rule (Some ("Detected in log: " ++ str (content offending))))
  /\ (Forall (fun log => ~ occurs_in loop_rule (str (content log))) (last_n 10 (_logs self)) ->
      _check_termination_conditions self =
      if _detect_loop self then terminated self loop_rule None
      else for_each after check_condition self).
Proof.
  intros Hlogs Hrules Hbefore.
  rewrite (check_termination_reaches self before after loop_rule) by done.
  split.
  - intros clean offending rest Hwindow Hclean Hhit.
    apply for_each_stops. rewrite check_condition_cases, Hwindow.
    by rewrite first_hit_find.
  - intros Hno.
    assert (check_condition loop_rule self =
            if _detect_loop self then terminated self loop_rule None else (self, Ok tt))
      as Hbody.
    { rewrite check_condition_cases, no_hit_find by done.
      destruct (_detect_loop self); reflexivity. }
    destruct (_detect_loop self).
    + by apply for_each_stops.
    + by apply for_each_goes_on.
Qed.

(** C7, as the code has it.  A counting rule, one that starts with
    ["the number of actions is >"] and whose threshold parses as the
    integer [N], goes through the substring scan first.  When none of the
    10 most recent entries of a non-empty log contains its text, it
    terminates the session exactly when the number of assistant entries of
    the whole log exceeds [N]; otherwise the next rule is tried. *)
Theorem counting_rule_after_substring_scan (self : Monitor)
    (before after : list string) (rule : string) (N : Z) :
  _logs self <> [] ->
  conditions_get "terminate_if" self = (before ++ rule :: after)%list ->
  Forall (fun earlier => check_condition earlier self = (self, Ok tt)) before ->
  Py.startswith rule count_prefix = true ->
  threshold rule = Some N ->
  Forall (fun log => ~ occurs_in rule (str (content log))) (last_n 10 (_logs self)) ->
  _check_termination_conditions self =
  if action_count (_logs self) >? N
  then terminated self rule None
  else for_each after check_condition self.
Proof.
  intros Hlogs Hrules Hbefore Hprefix Hlimit Hno.
  rewrite (check_termination_reaches self before after rule) by done.
  assert (check_condition rule self =
          if action_count (_logs self) >? N
          then terminated self rule None else (self, Ok tt)) as Hbody.
  { rewrite check_condition_cases, no_hit_find by done.
    by rewrite counting_rule_not_loop_rule, Hprefix, Hlimit. }
  destruct (action_count (_logs self) >? N).
  - by apply for_each_stops.
  - by apply for_each_goes_on.
Qed.

(** The only exception that leaves the termination check is
    [TerminationConditionMet], for one of the rules. *)
Lemma for_each_check_condition_raises (rules : list string) (self self' : Monitor) (e : exn) :
  for_each rules check_condition self = (self', Raise e) ->
  exists condition details,
    condition ∈ rules /\ e = TerminationConditionMet condition details.
Proof.
  induction rules as [|rule rules IH]; cbn [for_each]; [discriminate|].
  unfold bind at 1.
  destruct (check_condition_outcome rule self) as [-> | [details ->]].
  - intros H. destruct (IH H) as (c & d & Hin & ->).
    exists c, d. split; [by right|done].
  - unfold terminated. intros [= _ <-]. exists rule, details.
    split; [by left|done].
Qed.

Lemma check_termination_raises (self self' : Monitor) (e : exn) :
  _check_termination_conditions self = (self', Raise e) ->
  exists condition details,
    condition ∈ conditions_get "terminate_if" self /\
    e = TerminationConditionMet condition details.
Proof.
  unfold _check_termination_conditions, bind, get.
  destruct (_logs self); [discriminate|].
  apply for_each_check_condition_raises.
Qed.

(** C8, as the code has it.  A counting rule whose threshold does not
    parse goes through the substring scan like every rule, and can fire
    there.  When none of the 10 most recent entries contains its text it
    never fires: the check goes on to the rules after it.  In no case does
    [ValueError] or [IndexError] leave the check. *)
Theorem malformed_counting_rule_is_passed_over (self : Monitor)
    (before after : list string) (rule : string) :
  _logs self <> [] ->
  conditions_get "terminate_if" self = (before ++ rule :: after)%list ->
  Forall (fun earlier => check_condition earlier self = (self, Ok tt)) before ->
  Py.startswith rule count_prefix = true ->
  threshold rule = None ->
  (Forall (fun log => ~ occurs_in rule (str (content log))) (last_n 10 (_logs self)) ->
   _check_termination_conditions self = for_each after check_condition self)
  /\ snd (_check_termination_conditions self) <> Raise ValueError
  /\ snd (_check_termination_conditions self) <> Raise IndexError.
Proof.
  intros Hlogs Hrules Hbefore Hprefix Hlimit. split.
  - intros Hno.
    rewrite (check_termination_reaches self before after rule) by done.
    apply for_each_goes_on.
    rewrite check_condition_cases, no_hit_find by done.
    by rewrite counting_rule_not_loop_rule, Hprefix, Hlimit.
  - split; intros Hraise;
      destruct (_check_termination_conditions self) as [self' r] eqn:Hrun;
      cbn in Hraise; subst r;
      apply check_termination_raises in Hrun as (c & d & _ & [=]).
Qed.

(** C10. On an empty log the termination check and the permission check
    both return at once, the monitor object untouched: no termination, no
    pause, no notification, whatever the rules.  This holds for the rule
    ["the number of actions is > -1"] too, whose threshold parses and whose
    comparison holds on the empty log. *)
Theorem empty_log_checks_do_nothing (self : Monitor) :
  _logs self = [] ->
  _check_termination_conditions self = (self, Ok tt)
  /\ _check_permission_conditions self = (self, Ok tt)
  /\ threshold "the number of actions is > -1" = Some (-1)
  /\ (action_count (_logs self) >? -1) = true.
Proof.
  intros Hlogs.
  unfold _check_termination_conditions, _check_permission_conditions, bind, get.
  rewrite Hlogs. repeat split; reflexivity.
Qed.

End TerminationClaims.

(** ** The permission check and the pause *)

Section PermissionClaims.

Context {Content : Type} `{!Stringify Content}.

#[local] Abbreviation Monitor := (BaseMonitor Content).
#[local] Abbreviation Entry := (LogEntry Content).

Lemma ask_first_match_found (log_str : string) (before after : list string)
    (rule : string) (self : Monitor) :
  Forall (fun earlier => ~ occurs_in earlier log_str) before ->
  occurs_in rule log_str ->
  ask_first_match log_str (before ++ rule :: after)%list self =
  request_permission rule self.
Proof.
  intros Hbefore Hrule.
  induction Hbefore as [|earlier before Hearlier _ IH]; cbn [app ask_first_match].
  - apply str_in_occurs in Hrule. by rewrite Hrule.
  - apply str_in_not_occurs in Hearlier. by rewrite Hearlier.
Qed.

Lemma ask_first_match_none (log_str : string) (rules : list string) (self : Monitor) :
  Forall (fun rule => ~ occurs_in rule log_str) rules ->
  ask_first_match log_str rules self = (self, Ok tt).
Proof.
  induction 1 as [|rule rules Hrule _ IH]; cbn [ask_first_match]; [done|].
  apply str_in_not_occurs in Hrule. by rewrite Hrule.
Qed.

Lemma check_permission_newest (self : Monitor) (older : list Entry) (newest : Entry) :
  _logs self = (older ++ [newest])%list ->
  _check_permission_conditions self =
  ask_first_match (str (content newest)) (conditions_get "ask_permission_if" self) self.
Proof.
  intros Hlogs. unfold _check_permission_conditions, bind, get, last_item.
  rewrite Hlogs, last_snoc.
  destruct (older ++ [newest])%list eqn:E; [by destruct older|reflexivity].
Qed.

(** C3. On a log that is not empty the permission check reads the newest
    entry only.  It requests permission for the first rule of
    [ask_permission_if], in list order, whose lowercased text is a block
    of the lowercased stringified content of the newest entry; when no rule
    is, it does nothing, whatever the older entries contain. *)
Theorem permission_check_reads_newest_entry (self : Monitor)
    (older : list Entry) (newest : Entry) :
  _logs self = (older ++ [newest])%list ->
  (forall before rule after,
      conditions_get "ask_permission_if" self = (before ++ rule :: after)%list ->
      Forall (fun earlier => ~ occurs_in earlier (str (content newest))) before ->
      occurs_in rule (str (content newest)) ->
      _check_permission_conditions self = request_permission rule self)
  /\ (Forall (fun rule => ~ occurs_in rule (str (content newest)))
             (conditions_get "ask_permission_if" self) ->
      _check_permission_conditions self = (self, Ok tt)).
Proof.
  intros Hlogs.
  rewrite (check_permission_newest self older newest Hlogs). split.
  - intros before rule after -> Hbefore Hrule. by apply ask_first_match_found.
  - apply ask_first_match_none.
Qed.

(** What [request_permission] does, in any object. *)
Lemma request_permission_effect (condition : string) (self : Monitor) :
  request_permission condition self =
  ({| _termination_flag := _termination_flag self;
      _pause_flag := true;
      _resume_flag := false;
      _permission_granted := _permission_granted self;
      _logs := _logs self;
      _current_permission_condition := Some condition;
      _conditions := _conditions self;
      notified := notified self ++ [condition];
      stdout := stdout self ++ ["Permission required: " ++ condition] |}, Ok tt).
Proof. reflexivity. Qed.

(** The termination check writes the termination flag and nothing else. *)
Lemma for_each_check_condition_frame (rules : list string) (self : Monitor) :
  exists flag,
    fst (for_each rules check_condition self) = set_termination_flag flag self.
Proof.
  induction rules as [|rule rules IH]; cbn [for_each].
  - exists (_termination_flag self). by destruct self.
  - unfold bind at 1.
    destruct (check_condition_outcome rule self) as [-> | [details ->]].
    + exact IH.
    + by exists true.
Qed.

Lemma check_termination_frame (self : Monitor) :
  exists flag,
    fst (_check_termination_conditions self) = set_termination_flag flag self.
Proof.
  unfold _check_termination_conditions, bind, get.
  destruct (_logs self).
  - exists (_termination_flag self). by destruct self.
  - apply for_each_check_condition_frame.
Qed.

(** C9, as the code has it.  The guard against a second request is in the
    background loop, not in [request_permission]: in a monitor whose pause
    flag is set, a poll runs the termination check only, and leaves the
    pending condition, the pause and resume flags and the notifications as
    they were.  [request_permission] itself always stores its condition,
    sets the pause flag, clears the resume flag and notifies. *)
Theorem paused_poll_requests_nothing (self : Monitor) :
  _pause_flag self = true ->
  poll self = _check_termination_conditions self
  /\ _current_permission_condition (fst (poll self)) = _current_permission_condition self
  /\ _pause_flag (fst (poll self)) = _pause_flag self
  /\ _resume_flag (fst (poll self)) = _resume_flag self
  /\ notified (fst (poll self)) = notified self
  /\ forall condition,
       _current_permission_condition (fst (request_permission condition self)) = Some condition
       /\ _pause_flag (fst (request_permission condition self)) = true
       /\ _resume_flag (fst (request_permission condition self)) = false
       /\ notified (fst (request_permission condition self)) = (notified self ++ [condition])%list.
Proof.
  intros Hpaused.
  assert (poll self = _check_termination_conditions self) as Hpoll.
  { unfold poll, _monitor_loop_body. unfold bind at 1.
    destruct (check_termination_frame self) as [flag Hframe].
    destruct (_check_termination_conditions self) as [self' [[]|e]] eqn:Hrun;
      [|reflexivity].
    cbn [fst] in Hframe. subst self'.
    unfold bind, get. cbn [set_termination_flag _pause_flag].
    by rewrite Hpaused. }
  rewrite Hpoll. split; [reflexivity|].
  destruct (check_termination_frame self) as [flag ->].
  repeat split.
Qed.

(** The permission check and the poll never write [_permission_granted]. *)
Lemma ask_first_match_keeps_granted (log_str : string) (rules : list string) (self : Monitor) :
  _permission_granted (fst (ask_first_match log_str rules self)) = _permission_granted self.
Proof.
  induction rules as [|rule rules IH]; cbn [ask_first_match]; [reflexivity|].
  destruct (Py.str_in _ _); [reflexivity|exact IH].
Qed.

Lemma check_permission_keeps_granted (self : Monitor) :
  _permission_granted (fst (_check_permission_conditions self)) = _permission_granted self.
Proof.
  unfold _check_permission_conditions, bind, get, last_item.
  destruct (_logs self) as [|log logs]; [reflexivity|].
  destruct (last (log :: logs)); [|reflexivity].
  apply ask_first_match_keeps_granted.
Qed.

Lemma poll_keeps_granted (self : Monitor) :
  _permission_granted (fst (poll self)) = _permission_granted self.
Proof.
  unfold poll, _monitor_loop_body. unfold bind at 1.
  destruct (check_termination_frame self) as [flag Hframe].
  destruct (_check_termination_conditions self) as [self' [[]|e]];
    cbn [fst] in Hframe; subst self'; [|reflexivity].
  unfold bind, get. cbn [set_termination_flag _pause_flag].
  destruct (_pause_flag self); [reflexivity|].
  apply (check_permission_keeps_granted (set_termination_flag flag self)).
Qed.

Lemma after_polls_keeps_granted (polls : nat) (self : Monitor) :
  _permission_granted (after_polls polls self) = _permission_granted self.
Proof.
  revert self. induction polls as [|polls IH]; intros self; [reflexivity|].
  cbn [after_polls]. by rewrite IH, poll_keeps_granted.
Qed.

(** What the rest of [log] does once the wait has returned. *)
Lemma log_resumed_cases (self : Monitor) :
  log_resumed self =
  (self,
   match _permission_granted self with
   | Some true => Ok tt
   | _ => Raise (TerminationConditionMet
                   ("Permission denied for: " ++ str (_current_permission_condition self))
                   None)
   end).
Proof.
  unfold log_resumed, bind, get.
  destruct (_permission_granted self) as [[|]|]; reflexivity.
Qed.

(** C1. A caller that logs into a paused monitor whose resume flag is
    clear is left waiting, and its wait cannot return.  After
    [grant_permission(True)] the wait returns and [log] returns without an
    exception; after [grant_permission(False)] the wait returns and [log]
    raises [TerminationConditionMet].  The wait cannot return before the
    second statement of [grant_permission], and however many polls of the
    background thread run before the released caller goes on, [log] ends
    the same way. *)
Theorem grant_permission_releases_blocked_log (self : Monitor)
    (role : string) (content : Content) (now : Q) :
  _pause_flag self = true ->
  _resume_flag self = false ->
  exists waiting,
    log role content now self = (waiting, Ok Waiting)
    /\ log_wait waiting = None
    /\ log_wait (fst (grant_permission true waiting)) =
         Some (fst (grant_permission true waiting), Ok tt)
    /\ log_wait (fst (grant_permission false waiting)) =
         Some (fst (grant_permission false waiting),
               Raise (TerminationConditionMet
                        ("Permission denied for: " ++ str (_current_permission_condition self))
                        None))
    /\ (forall granted, log_wait (set_permission_granted (Some granted) waiting) = None)
    /\ (forall polls,
          snd (log_resumed (after_polls polls (fst (grant_permission true waiting)))) = Ok tt)
    /\ (forall polls,
          exists pending,
            snd (log_resumed (after_polls polls (fst (grant_permission false waiting)))) =
            Raise (TerminationConditionMet ("Permission denied for: " ++ pending) None)).
Proof.
  intros Hpaused Hresume.
  eexists. split.
  { unfold log, bind, modify, get, print. cbn. rewrite Hpaused. reflexivity. }
  split; [unfold log_wait; cbn; by rewrite Hresume|].
  split; [reflexivity|]. split; [reflexivity|].
  split; [intros granted; unfold log_wait; cbn; by rewrite Hresume|].
  split.
  - intros polls. rewrite log_resumed_cases. cbn [snd].
    by rewrite after_polls_keeps_granted.
  - intros polls. eexists. rewrite log_resumed_cases. cbn [snd].
    rewrite after_polls_keeps_granted. reflexivity.
Qed.

End PermissionClaims.

(** ** The loop heuristic *)

Section LoopClaims.

Context {Content : Type} `{!Stringify Content}.

#[local] Abbreviation Monitor := (BaseMonitor Content).
#[local] Abbreviation Entry := (LogEntry Content).

#[local] Abbreviation assistants :=
  (filter (fun log : Entry => role log = "assistant")).

Lemma last_n_app_exact {A} (older window : list A) :
  last_n (length window) (older ++ window) = window.
Proof.
  unfold last_n. rewrite length_app.
  replace (length older + length window - length window)%nat with (length older) by lia.
  by rewrite drop_app_length.
Qed.

(** A list of six or more items ends with six items. *)
Lemma last_six {A} (l : list A) :
  (6 <= length l)%nat ->
  exists older a b c d e f, l = (older ++ [a; b; c; d; e; f])%list /\
                            last_n 6 l = [a; b; c; d; e; f].
Proof.
  intros Hlen.
  destruct (last_n_suffix 6 l) as [Hsplit Hlength].
  rewrite Nat.min_l in Hlength by done.
  destruct (last_n 6 l) as [|a [|b [|c [|d [|e [|f [|g w]]]]]]] eqn:Hw;
    try discriminate.
  exists (take (length l - 6) l), a, b, c, d, e, f. by split.
Qed.

Lemma assistants_length_le (l : list Entry) :
  (length (assistants l) <= length l)%nat.
Proof. apply length_filter. Qed.

(** Six survivors out of six: every entry is an assistant entry. *)
Lemma assistants_all (l : list Entry) :
  length (assistants l) = length l ->
  assistants l = l /\ Forall (fun log => role log = "assistant") l.
Proof.
  induction l as [|x l IH]; [done|].
  rewrite filter_cons. case_decide as Hx; cbn [length].
  - intros [= Hlen]. destruct (IH Hlen) as [-> Hall]. by split; [|constructor].
  - pose proof (assistants_length_le l). lia.
Qed.

Lemma assistants_id (l : list Entry) :
  Forall (fun log => role log = "assistant") l -> assistants l = l.
Proof.
  induction 1 as [|x l Hx _ IH]; [done|].
  rewrite filter_cons, decide_True by done. by rewrite IH.
Qed.

(** When [_detect_loop] holds. *)
Lemma detect_loop_true (self : Monitor) :
  _detect_loop self = true <->
  exists older e1 e2 e3 e4 e5 e6,
    _logs self = (older ++ [e1; e2; e3; e4; e5; e6])%list
    /\ Forall (fun log => role log = "assistant") [e1; e2; e3; e4; e5; e6]
    /\ str (content e1) = str (content e4)
    /\ str (content e2) = str (content e5)
    /\ str (content e3) = str (content e6).
Proof.
  unfold _detect_loop. split.
  - destruct (Nat.ltb_spec (length (_logs self)) 6) as [|Hlen]; [discriminate|].
    destruct (last_six (_logs self) Hlen) as (older & e1 & e2 & e3 & e4 & e5 & e6 & Hlogs & ->).
    destruct (Nat.ltb_spec (length (assistants [e1; e2; e3; e4; e5; e6])) 6) as [|Hsix];
      [discriminate|].
    pose proof (assistants_length_le [e1; e2; e3; e4; e5; e6]) as Hle. cbn [length] in Hle.
    destruct (assistants_all [e1; e2; e3; e4; e5; e6]) as [-> Hall]; [cbn [length]; lia|].
    intros Heq. apply bool_decide_eq_true in Heq. unfold last_n, slice_from_end in Heq. cbn in Heq.
    injection Heq as H4 H5 H6.
    exists older, e1, e2, e3, e4, e5, e6. by repeat split.
  - intros (older & e1 & e2 & e3 & e4 & e5 & e6 & -> & Hall & H1 & H2 & H3).
    rewrite length_app. cbn [length].
    destruct (Nat.ltb_spec (length older + 6) 6) as [|_]; [lia|].
    pose proof (last_n_app_exact older [e1; e2; e3; e4; e5; e6]) as Hwindow.
    cbn [length] in Hwindow. rewrite Hwindow.
    rewrite (assistants_id _ Hall). cbn [length Nat.ltb Nat.leb].
    apply bool_decide_eq_true. unfold last_n, slice_from_end. cbn. by rewrite H1, H2, H3.
Qed.

Lemma detect_loop_few_in_window (self : Monitor) :
  (length (assistants (last_n 6 (_logs self))) < 6)%nat ->
  _detect_loop self = false.
Proof.
  intros Hfew. unfold _detect_loop.
  destruct (length (_logs self) <? 6)%nat; [done|].
  apply Nat.ltb_lt in Hfew. by rewrite Hfew.
Qed.

(** C4. [_detect_loop] holds exactly when the log ends with six entries
    that are all assistant entries and the stringified contents of the
    first three of them equal those of the last three, in order.  With
    fewer than six assistant entries among the six most recent entries it
    does not hold. *)
Theorem detect_loop_iff (self : Monitor) :
  (_detect_loop self = true <->
   exists older e1 e2 e3 e4 e5 e6,
     _logs self = (older ++ [e1; e2; e3; e4; e5; e6])%list
     /\ Forall (fun log => role log = "assistant") [e1; e2; e3; e4; e5; e6]
     /\ str (content e1) = str (content e4)
     /\ str (content e2) = str (content e5)
     /\ str (content e3) = str (content e6))
  /\ ((length (assistants (last_n 6 (_logs self))) < 6)%nat ->
      _detect_loop self = false).
Proof.
  split; [apply detect_loop_true|apply detect_loop_few_in_window].
Qed.

(** X20.  The parts of C5 that hold.  With fewer than six assistant entries in
    the whole log there is no loop. *)
Lemma detect_loop_few_actions (self : Monitor) :
  (length (assistants (_logs self)) < 6)%nat -> _detect_loop self = false.
Proof.
  intros Hfew. apply detect_loop_few_in_window.
  destruct (last_n_suffix 6 (_logs self)) as [Hsplit _].
  rewrite Hsplit, filter_app, length_app in Hfew. lia.
Qed.

(** X21.  When the last six assistant entries end two triples that differ in
    their third content, there is no loop. *)
Lemma detect_loop_last_differs (self : Monitor) (earlier : list Entry)
    (a1 a2 a3 a4 a5 a6 : Entry) :
  assistants (_logs self) = (earlier ++ [a1; a2; a3; a4; a5; a6])%list ->
  str (content a3) <> str (content a6) ->
  _detect_loop self = false.
Proof.
  intros Hactions Hdiffer.
  destruct (_detect_loop self) eqn:Hloop; [|reflexivity].
  apply detect_loop_true in Hloop
    as (older & e1 & e2 & e3 & e4 & e5 & e6 & Hlogs & Hall & _ & _ & H3).
  rewrite Hlogs, filter_app, (assistants_id _ Hall) in Hactions.
  apply app_inj_2 in Hactions as [_ [= -> -> -> -> -> ->]]; [|reflexivity].
  done.
Qed.

End LoopClaims.

(** C4 at a concrete log. *)
Lemma detect_loop_iff_witness : _detect_loop repeating_session = true.
Proof.
  apply (proj1 (detect_loop_iff repeating_session)).
  exists [], (entry "assistant" "A"), (entry "assistant" "B"), (entry "assistant" "C"),
         (entry "assistant" "A"), (entry "assistant" "B"), (entry "assistant" "C").
  split; [reflexivity|]. split; [by repeat constructor|]. by repeat split.
Defined.

(** C5 on the code.  The assistant entries of [interleaved_session] are
    A, B, C, A, B, C, each followed by an answer of the environment, and
    [_detect_loop] does not hold: the six most recent entries contain three
    assistant entries only. *)
Theorem interleaved_loop_is_missed :
  ((fun log => str (content log)) <$>
     filter (fun log => role log = "assistant") (_logs interleaved_session))
  = ["A"; "B"; "C"; "A"; "B"; "C"]
  /\ _detect_loop interleaved_session = false
  /\ _check_termination_conditions interleaved_session = (interleaved_session, Ok tt).
Proof. repeat split. Qed.

(** ** The counting rule as it is written: [int(str(n)) = n] *)






Lemma split_no_sep (sep : ascii) (s : string) :
  Forall (fun c => Ascii.eqb c sep = false) (chars s) -> Py.split sep s = [s].
Proof.
  induction s as [|c s IH]; [done|].
  cbn [chars list_ascii_of_string Py.split]. intros Hall.
  apply Forall_cons in Hall as [Hc Hs]. by rewrite Hc, (IH Hs).
Qed.

Lemma split_at_sep (sep : ascii) (a b : string) :
  Forall (fun c => Ascii.eqb c sep = false) (chars a) ->
  Py.split sep (a ++ String sep b) = a :: Py.split sep b.
Proof.
  induction a as [|c a IH].
  - intros _. rewrite append_empty_l. cbn [Py.split]. by rewrite Ascii.eqb_refl.
  - cbn [chars list_ascii_of_string]. intros Hall.
    apply Forall_cons in Hall as [Hc Ha].
    rewrite append_cons. cbn [Py.split]. by rewrite Hc, (IH Ha).
Qed.







(** ** Instances *)

(** Both readings of "occurs", decided by running [in]. *)
Lemma occurs_by_run (pattern text : string) :
  Py.str_in (Py.lower pattern) (Py.lower text) = true -> occurs_in pattern text.
Proof. apply str_in_occurs. Qed.

Lemma not_occurs_by_run (pattern text : string) :
  Py.str_in (Py.lower pattern) (Py.lower text) = false -> ~ occurs_in pattern text.
Proof. apply str_in_not_occurs. Qed.

Lemma termination_first_hit_wins_witness :
  _logs facebook_session <> []
  /\ conditions_get "terminate_if" facebook_session = (["captcha"] ++ "facebook.com" :: ["hello"])%list
  /\ Forall (fun earlier => check_condition earlier facebook_session = (facebook_session, Ok tt))
            ["captcha"]
  /\ _check_termination_conditions facebook_session =
     terminated facebook_session "facebook.com"
       (Some "Detected in log: Let me check Facebook.com").
Proof.
  assert (_logs facebook_session <> []) as Hlogs by discriminate.
  assert (conditions_get "terminate_if" facebook_session
          = (["captcha"] ++ "facebook.com" :: ["hello"])%list) as Hrules by reflexivity.
  assert (Forall (fun earlier => check_condition earlier facebook_session
                                 = (facebook_session, Ok tt)) ["captcha"]) as Hbefore.
  { constructor; [vm_compute; reflexivity|constructor]. }
  split; [exact Hlogs|]. split; [exact Hrules|]. split; [exact Hbefore|].
  apply (proj1 (termination_first_hit_wins facebook_session ["captcha"] ["hello"]
                  "facebook.com" Hlogs Hrules Hbefore)
           [entry "user" "hello"] (entry "assistant" "Let me check Facebook.com") []).
  - reflexivity.
  - constructor; [apply not_occurs_by_run; reflexivity|constructor].
  - apply occurs_by_run. reflexivity.
Defined.

Lemma permission_check_reads_newest_entry_witness :
  _logs rm_session =
    ([entry "assistant" "sudo make install"] ++ [entry "assistant" "I'll run rm -rf /"])%list
  /\ _check_permission_conditions rm_session = request_permission "rm -rf" rm_session.
Proof.
  assert (_logs rm_session =
          ([entry "assistant" "sudo make install"] ++ [entry "assistant" "I'll run rm -rf /"])%list)
    as Hlogs by reflexivity.
  split; [exact Hlogs|].
  apply (proj1 (permission_check_reads_newest_entry rm_session _ _ Hlogs)
           ["sudo"] "rm -rf" ["run"]).
  - reflexivity.
  - constructor; [apply not_occurs_by_run; reflexivity|constructor].
  - apply occurs_by_run. reflexivity.
Defined.

Lemma grant_permission_releases_blocked_log_witness :
  _pause_flag paused_session = true
  /\ _resume_flag paused_session = false
  /\ exists waiting,
       log "assistant" "next step" 0%Q paused_session = (waiting, Ok Waiting)
       /\ log_wait waiting = None
       /\ log_wait (fst (grant_permission true waiting)) =
            Some (fst (grant_permission true waiting), Ok tt)
       /\ log_wait (fst (grant_permission false waiting)) =
            Some (fst (grant_permission false waiting),
                  Raise (TerminationConditionMet "Permission denied for: rm -rf" None)).
Proof.
  split; [reflexivity|]. split; [reflexivity|].
  destruct (grant_permission_releases_blocked_log paused_session
              "assistant" "next step" 0%Q eq_refl eq_refl)
    as (waiting & Hlog & Hwait & Hgranted & Hdenied & _).
  exists waiting. split; [exact Hlog|]. split; [exact Hwait|].
  split; [exact Hgranted|exact Hdenied].
Defined.

(** The message of the denial names the pending condition. *)
Example denial_message :
  str (_current_permission_condition paused_session) = "rm -rf".
Proof. reflexivity. Qed.

Lemma paused_poll_requests_nothing_witness :
  _pause_flag paused_session = true
  /\ poll paused_session = _check_termination_conditions paused_session
  /\ notified (fst (poll paused_session)) = ["rm -rf"].
Proof.
  split; [reflexivity|].
  pose proof (paused_poll_requests_nothing paused_session eq_refl)
    as (Hpoll & _ & _ & _ & Hnotified & _).
  split; [exact Hpoll|]. rewrite Hnotified. reflexivity.
Defined.

(** C9, the claim as stated fails: in a paused monitor a second
    [request_permission] replaces the pending condition and notifies
    again. *)
Lemma request_permission_when_paused_is_not_a_noop :
  _pause_flag paused_session = true
  /\ _current_permission_condition paused_session = Some "rm -rf"
  /\ notified paused_session = ["rm -rf"]
  /\ _current_permission_condition (fst (request_permission "sudo" paused_session)) = Some "sudo"
  /\ notified (fst (request_permission "sudo" paused_session)) = ["rm -rf"; "sudo"]
  /\ notified (fst (request_permission "rm -rf" paused_session)) = ["rm -rf"; "rm -rf"]
  /\ fst (request_permission "rm -rf" paused_session) <> paused_session.
Proof.
  repeat split. intros Heq. apply (f_equal notified) in Heq. discriminate.
Qed.

Lemma loop_rule_scan_then_heuristic_witness :
  _logs repeating_session <> []
  /\ conditions_get "terminate_if" repeating_session = ([] ++ loop_rule :: [])%list
  /\ Forall (fun earlier => check_condition earlier repeating_session = (repeating_session, Ok tt)) []
  /\ _detect_loop repeating_session = true
  /\ _check_termination_conditions repeating_session =
     terminated repeating_session loop_rule None.
Proof.
  assert (_logs repeating_session <> []) as Hlogs by discriminate.
  assert (conditions_get "terminate_if" repeating_session = ([] ++ loop_rule :: [])%list)
    as Hrules by reflexivity.
  split; [exact Hlogs|]. split; [exact Hrules|]. split; [constructor|].
  split; [reflexivity|].
  rewrite (proj2 (loop_rule_scan_then_heuristic repeating_session [] []
                    Hlogs Hrules (List.Forall_nil _))).
  - reflexivity.
  - repeat (constructor; [apply not_occurs_by_run; reflexivity|]). constructor.
Defined.

(** C6, the claim as stated fails: an entry that quotes the loop rule
    terminates the session under that rule although the loop heuristic
    does not hold. *)
Lemma loop_rule_matched_as_substring :
  _detect_loop quoted_loop_session = false
  /\ _check_termination_conditions quoted_loop_session =
     terminated quoted_loop_session loop_rule
       (Some "Detected in log: Warning: the agent seems stuck in a loop").
Proof. split; reflexivity. Qed.

Lemma counting_rule_after_substring_scan_witness :
  _logs four_actions_session <> []
  /\ conditions_get "terminate_if" four_actions_session =
       ([] ++ "the number of actions is > 3" :: [])%list
  /\ Py.startswith "the number of actions is > 3" count_prefix = true
  /\ threshold "the number of actions is > 3" = Some 3
  /\ action_count (_logs three_actions_session) = 3
  /\ _check_termination_conditions three_actions_session = (three_actions_session, Ok tt)
  /\ action_count (_logs four_actions_session) = 4
  /\ _check_termination_conditions four_actions_session =
     terminated four_actions_session "the number of actions is > 3" None.
Proof.
  assert (_logs four_actions_session <> []) as Hlogs4 by discriminate.
  assert (_logs three_actions_session <> []) as Hlogs3 by discriminate.
  split; [exact Hlogs4|]. split; [reflexivity|]. split; [reflexivity|].
  split; [reflexivity|]. split; [reflexivity|]. split; [|split; [reflexivity|]].
  - rewrite (counting_rule_after_substring_scan three_actions_session [] []
               "the number of actions is > 3" 3 Hlogs3 eq_refl (List.Forall_nil _) eq_refl eq_refl).
    + reflexivity.
    + repeat (constructor; [apply not_occurs_by_run; reflexivity|]). constructor.
  - rewrite (counting_rule_after_substring_scan four_actions_session [] []
               "the number of actions is > 3" 3 Hlogs4 eq_refl (List.Forall_nil _) eq_refl eq_refl).
    + reflexivity.
    + repeat (constructor; [apply not_occurs_by_run; reflexivity|]). constructor.
Defined.

(** C7, the claim as stated fails: with no assistant entry at all, an
    entry that quotes the counting rule terminates the session under that
    rule. *)
Lemma counting_rule_matched_as_substring :
  count_rule 3 = "the number of actions is > 3"
  /\ action_count (_logs quoted_count_session) = 0
  /\ _check_termination_conditions quoted_count_session =
     terminated quoted_count_session "the number of actions is > 3"
       (Some "Detected in log: Stop when the number of actions is > 3").
Proof. repeat split. Qed.

Lemma malformed_counting_rule_is_passed_over_witness :
  _logs lots_session <> []
  /\ conditions_get "terminate_if" lots_session =
       ([] ++ "the number of actions is > lots" :: ["facebook.com"])%list
  /\ Py.startswith "the number of actions is > lots" count_prefix = true
  /\ threshold "the number of actions is > lots" = None
  /\ _check_termination_conditions lots_session =
     terminated lots_session "facebook.com" (Some "Detected in log: Let me check facebook.com").
Proof.
  assert (_logs lots_session <> []) as Hlogs by discriminate.
  split; [exact Hlogs|]. split; [reflexivity|]. split; [reflexivity|].
  split; [reflexivity|].
  rewrite (proj1 (malformed_counting_rule_is_passed_over lots_session [] ["facebook.com"]
                    "the number of actions is > lots" Hlogs eq_refl (List.Forall_nil _)
                    eq_refl eq_refl)).
  - reflexivity.
  - repeat (constructor; [apply not_occurs_by_run; reflexivity|]). constructor.
Defined.

(** C8, the claim as stated fails: a counting rule whose threshold does
    not parse still terminates the session when an entry quotes it. *)
Lemma malformed_counting_rule_matched_as_substring :
  threshold "the number of actions is > lots" = None
  /\ _check_termination_conditions quoted_lots_session =
     terminated quoted_lots_session "the number of actions is > lots"
       (Some "Detected in log: THE NUMBER OF ACTIONS IS > LOTS").
Proof. split; reflexivity. Qed.

Lemma empty_log_checks_do_nothing_witness :
  _logs empty_session = []
  /\ conditions_get "terminate_if" empty_session = ["the number of actions is > -1"; ""]
  /\ _check_termination_conditions empty_session = (empty_session, Ok tt)
  /\ _check_permission_conditions empty_session = (empty_session, Ok tt).
Proof.
  split; [reflexivity|]. split; [reflexivity|].
  pose proof (empty_log_checks_do_nothing empty_session eq_refl) as (Hterm & Hperm & _).
  split; [exact Hterm|exact Hperm].
Defined.

(** * Further properties of the code *)

(** ** What a check can do to the monitor object *)

Section Outcomes.

Context {Content : Type} `{!Stringify Content}.

#[local] Abbreviation Monitor := (BaseMonitor Content).
#[local] Abbreviation Entry := (LogEntry Content).

Lemma for_each_check_condition_outcome (rules : list string) (self : Monitor) :
  for_each rules check_condition self = (self, Ok tt) \/
  exists condition details,
    condition ∈ rules /\
    for_each rules check_condition self = terminated self condition details.
Proof.
  induction rules as [|rule rules IH]; [by left|].
  cbn [for_each]. unfold bind.
  destruct (check_condition_outcome rule self) as [-> | [details ->]].
  - destruct IH as [IH | (c & d & Hin & IH)]; [by left|].
    right. exists c, d. split; [by right|exact IH].
  - right. exists rule, details. split; [by left|reflexivity].
Qed.

(** The termination check returns in the same object, or terminates
    under one of the rules. *)
Lemma check_termination_outcome (self : Monitor) :
  _check_termination_conditions self = (self, Ok tt) \/
  exists condition details,
    condition ∈ conditions_get "terminate_if" self /\
    _check_termination_conditions self = terminated self condition details.
Proof.
  unfold _check_termination_conditions, bind, get.
  destruct (_logs self); [by left|].
  apply for_each_check_condition_outcome.
Qed.

(** The permission loop picks the first rule that [in] finds. *)
Lemma ask_first_match_find (log_str : string) (rules : list string) (self : Monitor) :
  ask_first_match log_str rules self =
  match List.find (fun rule => Py.str_in (Py.lower rule) (Py.lower log_str)) rules with
  | Some rule => request_permission rule self
  | None => (self, Ok tt)
  end.
Proof.
  induction rules as [|rule rules IH]; cbn [ask_first_match List.find]; [reflexivity|].
  destruct (Py.str_in _ _); [reflexivity|exact IH].
Qed.

(** The newest entry of a log, if any. *)
Lemma check_permission_find (self : Monitor) :
  _check_permission_conditions self =
  match last (_logs self) with
  | None => (self, Ok tt)
  | Some newest =>
      match List.find (fun rule => Py.str_in (Py.lower rule) (Py.lower (str (content newest))))
                      (conditions_get "ask_permission_if" self) with
      | Some rule => request_permission rule self
      | None => (self, Ok tt)
      end
  end.
Proof.
  unfold _check_permission_conditions, bind, get, last_item.
  destruct (_logs self) as [|log logs]; [reflexivity|].
  destruct (last (log :: logs)) as [newest|] eqn:Hlast.
  - cbn [ret]. apply ask_first_match_find.
  - by apply last_None in Hlast.
Qed.

Lemma find_some_elem {A} (p : A -> bool) (l : list A) (x : A) :
  List.find p l = Some x -> x ∈ l /\ p x = true.
Proof.
  intros H. apply List.find_some in H as [Hin Hp].
  split; [by apply list_elem_of_In|exact Hp].
Qed.

(** The permission check never raises: it returns in the same object, or
    after one request for one of its rules. *)
Lemma check_permission_outcome (self : Monitor) :
  _check_permission_conditions self = (self, Ok tt) \/
  exists rule,
    rule ∈ conditions_get "ask_permission_if" self /\
    _check_permission_conditions self = request_permission rule self.
Proof.
  rewrite check_permission_find.
  destruct (last (_logs self)) as [newest|]; [|by left].
  destruct (List.find _ _) as [rule|] eqn:Hfind; [|by left].
  right. exists rule. split; [|reflexivity].
  by apply find_some_elem in Hfind as [Hin _].
Qed.

(** The three ways a poll can end. *)
Lemma poll_outcome (self : Monitor) :
  poll self = (self, Ok tt)
  \/ (exists condition details,
        condition ∈ conditions_get "terminate_if" self /\
        poll self = terminated self condition details)
  \/ (_pause_flag self = false /\
      _check_termination_conditions self = (self, Ok tt) /\
      exists rule,
        rule ∈ conditions_get "ask_permission_if" self /\
        _check_permission_conditions self = request_permission rule self /\
        poll self = request_permission rule self).
Proof.
  unfold poll, _monitor_loop_body, bind, get.
  destruct (check_termination_outcome self) as [Hterm | (c & d & Hin & Hterm)];
    rewrite Hterm.
  - destruct (_pause_flag self) eqn:Hpaused; [by left|].
    destruct (check_permission_outcome self) as [Hperm | (rule & Hin & Hperm)].
    + left. exact Hperm.
    + right. right. repeat split; try done. exists rule. by rewrite Hperm.
  - right. left. exists c, d. by split.
Qed.

(** The checks read the log and the rules only. *)
Lemma detect_loop_reads_logs (self other : Monitor) :
  _logs self = _logs other -> _detect_loop self = _detect_loop other.
Proof. intros Hlogs. unfold _detect_loop. by rewrite Hlogs. Qed.

Lemma check_condition_reads_logs (condition : string) (self other : Monitor) :
  _logs self = _logs other ->
  snd (check_condition condition self) = snd (check_condition condition other).
Proof.
  intros Hlogs. rewrite !check_condition_cases.
  rewrite (detect_loop_reads_logs self other Hlogs), Hlogs.
  destruct (List.find _ _); [reflexivity|].
  destruct (_ && _); [reflexivity|].
  destruct (Py.startswith _ _); [|reflexivity].
  destruct (threshold _); [|reflexivity].
  destruct (_ >? _); reflexivity.
Qed.

Lemma for_each_check_condition_reads_logs (rules : list string) (self other : Monitor) :
  _logs self = _logs other ->
  snd (for_each rules check_condition self) = snd (for_each rules check_condition other).
Proof.
  intros Hlogs. induction rules as [|rule rules IH]; [reflexivity|].
  cbn [for_each]. unfold bind.
  pose proof (check_condition_reads_logs rule self other Hlogs) as Hrule.
  destruct (check_condition_outcome rule self) as [Hs | [ds Hs]];
    destruct (check_condition_outcome rule other) as [Ho | [do Ho]];
    rewrite Hs, Ho in *; cbn [snd terminated] in *; try discriminate.
  - exact IH.
  - exact Hrule.
Qed.

Lemma check_termination_reads_inputs (self other : Monitor) :
  _logs self = _logs other ->
  _conditions self = _conditions other ->
  snd (_check_termination_conditions self) = snd (_check_termination_conditions other).
Proof.
  intros Hlogs Hrules. unfold _check_termination_conditions, bind, get, conditions_get.
  rewrite <- Hlogs. destruct (_logs self) eqn:E; [reflexivity|].
  rewrite <- Hrules. apply for_each_check_condition_reads_logs. by rewrite E.
Qed.

(** The result of the termination check fixes the object it leaves. *)
Lemma check_termination_by_result (self : Monitor) :
  _check_termination_conditions self =
  (match snd (_check_termination_conditions self) with
   | Ok _ => self
   | Raise _ => set_termination_flag true self
   end, snd (_check_termination_conditions self)).
Proof.
  destruct (check_termination_outcome self) as [-> | (c & d & _ & ->)]; reflexivity.
Qed.

End Outcomes.

(** ** The background loop *)

Section BackgroundLoop.

Context {Content : Type} `{!Stringify Content}.

#[local] Abbreviation Monitor := (BaseMonitor Content).
#[local] Abbreviation Entry := (LogEntry Content).



Section AnyHooks.

Variable check_termination_conditions : M Content unit.
Variable check_permission_conditions : M Content unit.

Lemma monitor_loop_flag_set (polls : nat) (self : Monitor) :
  _termination_flag self = true ->
  _monitor_loop check_termination_conditions check_permission_conditions polls self
  = (self, Ok tt).
Proof.
  intros Hflag. destruct polls; [reflexivity|].
  cbn [_monitor_loop]. unfold bind, get. by rewrite Hflag.
Qed.

End AnyHooks.

(** A poll that returns has not set the termination flag, and a second
    poll finds nothing more to do. *)
Lemma poll_settles (self after : Monitor) :
  poll self = (after, Ok tt) ->
  _termination_flag after = _termination_flag self /\ poll after = (after, Ok tt).
Proof.
  intros Hpoll.
  destruct (poll_outcome self)
    as [Hok | [(c & d & _ & Hterm) | (Hpaused & Hterm & rule & _ & _ & Hask)]];
    rewrite Hpoll in *.
  - injection Hok as ->. by split.
  - discriminate.
  - rewrite request_permission_effect in Hask. injection Hask as ->.
    split; [reflexivity|].
    unfold poll, _monitor_loop_body, bind, get.
    rewrite check_termination_by_result.
    rewrite (check_termination_reads_inputs _ self) by reflexivity.
    by rewrite Hterm.
Qed.

Lemma monitor_loop_settled (polls : nat) (self : Monitor) :
  poll self = (self, Ok tt) ->
  _monitor_loop _check_termination_conditions _check_permission_conditions polls self
  = (self, Ok tt).
Proof.
  intros Hpoll. induction polls as [|polls IH]; [reflexivity|].
  cbn [_monitor_loop]. unfold bind at 1. unfold get at 1.
  destruct (_termination_flag self); [reflexivity|].
  unfold bind. fold (@poll Content _). by rewrite Hpoll.
Qed.

(** X3. The loop of the background thread of a [LocalMonitor], run for
    any number of polls while nothing new is logged: with the termination
    flag set (by [__exit__] or [terminate]) it makes no check at all;
    otherwise it does what its first poll does, so that a pause is
    requested, and the notification hook called, once and not once per
    poll. *)
Theorem monitor_loop_is_its_first_poll (polls : nat) (self : Monitor) :
  _monitor_loop _check_termination_conditions _check_permission_conditions (S polls) self
  = if _termination_flag self then (self, Ok tt) else poll self.
Proof.
  destruct (_termination_flag self) eqn:Hflag; [by apply monitor_loop_flag_set|].
  cbn [_monitor_loop]. unfold bind at 1. unfold get at 1.
  rewrite Hflag. unfold bind. fold (@poll Content _).
  destruct (poll self) as [after [[]|e]] eqn:Hpoll; [|reflexivity].
  apply poll_settles in Hpoll as [_ Hagain].
  by apply monitor_loop_settled.
Qed.

(** X4. With no rule in either list, and also when the configuration
    lacks the two keys, no poll ever terminates, pauses or notifies,
    whatever has been logged. *)
Theorem no_rules_no_reaction (polls : nat) (self : Monitor) :
  conditions_get "terminate_if" self = [] ->
  conditions_get "ask_permission_if" self = [] ->
  _monitor_loop _check_termination_conditions _check_permission_conditions polls self
  = (self, Ok tt).
Proof.
  intros Hterm Hask. apply monitor_loop_settled.
  destruct (poll_outcome self)
    as [Hok | [(c & d & Hin & _) | (_ & _ & rule & Hin & _)]].
  - exact Hok.
  - rewrite Hterm in Hin. by apply elem_of_nil in Hin.
  - rewrite Hask in Hin. by apply elem_of_nil in Hin.
Qed.

(** X5. No poll, no [terminate] and no [__exit__] sets the resume flag: a
    caller waiting in [log] stays there through any number of polls, even
    when one of them terminates the session.  Only [grant_permission]
    lets it go. *)
Theorem only_grant_releases (self : Monitor) :
  _resume_flag self = false ->
  (forall polls, log_wait (after_polls polls self) = None)
  /\ (forall condition details, log_wait (fst (terminate condition details self)) = None)
  /\ log_wait (fst (__exit__ self)) = None.
Proof.
  intros Hresume. split; [|split].
  - intros polls. revert self Hresume.
    induction polls as [|polls IH]; intros self Hresume.
    + unfold log_wait. cbn [after_polls]. by rewrite Hresume.
    + cbn [after_polls]. apply IH.
      destruct (poll_outcome self)
        as [-> | [(c & d & _ & ->) | (_ & _ & rule & _ & _ & ->)]]; done.
  - intros condition details. unfold log_wait. cbn. by rewrite Hresume.
  - unfold log_wait. cbn. by rewrite Hresume.
Qed.

End BackgroundLoop.

(** ** Whole sessions *)

Section Sessions.

Context {Content : Type} `{!Stringify Content}.

#[local] Abbreviation Monitor := (BaseMonitor Content).
#[local] Abbreviation Entry := (LogEntry Content).

(** What [log] does up to the wait. *)
Lemma log_effect (role : string) (content : Content) (now : Q) (self : Monitor) :
  log role content now self =
  (set_stdout
     (if _pause_flag self
      then (stdout self ++ ["Agent paused: Waiting for permission..."])%list
      else stdout self)
     (set_logs (_logs self ++ [{| role := role; content := content; timestamp := now |}])%list
               self),
   Ok (if _pause_flag self then Waiting else Returned)).
Proof.
  unfold log, bind, modify, get, print. cbn.
  destruct (_pause_flag self) eqn:Hpaused; cbn; [reflexivity|].
  by destruct self.
Qed.

(** What one call can have done to the log and to the rules. *)
Lemma step_frame (self after : Monitor) :
  step self after ->
  (exists added, _logs after = (_logs self ++ added)%list)
  /\ _conditions after = _conditions self.
Proof.
  destruct 1 as [role content now self | self released Hwait | self
                 | granted self | self | self].
  - rewrite log_effect. cbn. split; eauto.
  - unfold log_wait in Hwait. destruct (_resume_flag self); [|discriminate].
    injection Hwait as <-. rewrite log_resumed_cases. cbn [fst].
    split; [exists []; by rewrite app_nil_r|reflexivity].
  - destruct (poll_outcome self)
      as [-> | [(c & d & _ & ->) | (_ & _ & rule & _ & _ & ->)]];
      cbn; (split; [exists []; by rewrite app_nil_r|reflexivity]).
  - cbn. split; [exists []; by rewrite app_nil_r|reflexivity].
  - cbn. split; [exists []; by rewrite app_nil_r|reflexivity].
  - cbn. split; [exists []; by rewrite app_nil_r|reflexivity].
Qed.

(** X6. Through any sequence of calls (logging, polls, answers of the
    operator, entering and leaving the context) the log only grows at its
    end, no entry is removed, edited or moved, and the rules stay as they
    were loaded. *)
Theorem calls_only_append (self later : Monitor) :
  rtc step self later ->
  (exists added, _logs later = (_logs self ++ added)%list)
  /\ _conditions later = _conditions self.
Proof.
  induction 1 as [self | self next later Hstep _ [[added' Hlogs] Hrules]].
  - split; [exists []; by rewrite app_nil_r|reflexivity].
  - apply step_frame in Hstep as [[added Hnext] Hsame].
    split.
    + exists (added ++ added')%list. by rewrite Hlogs, Hnext, app_assoc.
    + by rewrite Hrules.
Qed.



(** X8. [request_permission] sets the pause flag before it clears the
    resume flag.  In the state between these two statements, in a monitor
    whose resume flag is still set from an earlier answer, a caller that
    logs finds the monitor paused but its wait returns at once, and [log]
    ends as the earlier answer says: it returns if that was a grant, and
    raises for the new condition if it was a denial. *)
Theorem request_permission_window (self : Monitor) (earlier : bool)
    (condition role : string) (content : Content) (now : Q) :
  _resume_flag self = true ->
  _permission_granted self = Some earlier ->
  let between := set_pause_flag true
                   (set_current_permission_condition (Some condition) self) in
  request_permission condition self
  = (modify (set_resume_flag false) ;; _notify_permission_needed condition) between
  /\ exists waiting,
       log role content now between = (waiting, Ok Waiting)
       /\ log_wait waiting =
          Some (waiting,
                if earlier then Ok tt
                else Raise (TerminationConditionMet
                              ("Permission denied for: " ++ condition) None)).
Proof.
  intros Hresume Hearlier between. split; [reflexivity|].
  eexists. split; [reflexivity|].
  unfold log_wait. rewrite log_resumed_cases. cbn.
  rewrite Hresume, Hearlier. by destruct earlier.
Qed.

(** X9. [__enter__] clears the three flags and keeps the log and the
    rules: when a session was terminated under a rule, the same monitor
    object entered again terminates under the same rule, with the same
    details, at its first poll. *)
Theorem reentered_monitor_terminates_again (self : Monitor)
    (condition : string) (details : option string) :
  _check_termination_conditions self = terminated self condition details ->
  let again := fst (__enter__ (fst (__exit__ (fst (_check_termination_conditions self))))) in
  _termination_flag again = false
  /\ _logs again = _logs self
  /\ poll again = terminated again condition details.
Proof.
  intros Hterm again. split; [reflexivity|].
  assert (_logs again = _logs self) as Hlogs by (subst again; by rewrite Hterm).
  assert (_conditions again = _conditions self) as Hrules
    by (subst again; by rewrite Hterm).
  split; [exact Hlogs|].
  unfold poll, _monitor_loop_body. unfold bind at 1.
  rewrite check_termination_by_result.
  rewrite (check_termination_reads_inputs again self Hlogs Hrules), Hterm.
  reflexivity.
Qed.

(** X10. An answer of the operator does not use up what triggered the
    request.  When a poll has asked permission for a rule found in the
    newest entry and the operator answers, granting or denying, the next
    poll, if nothing new has been logged, asks again for the same rule and
    calls the notification hook a second time. *)
Theorem answer_does_not_consume_trigger (self : Monitor)
    (older : list Entry) (newest : Entry) (before after : list string) (rule : string)
    (granted : bool) :
  _pause_flag self = false ->
  _check_termination_conditions self = (self, Ok tt) ->
  _logs self = (older ++ [newest])%list ->
  conditions_get "ask_permission_if" self = (before ++ rule :: after)%list ->
  Forall (fun earlier => ~ occurs_in earlier (str (content newest))) before ->
  occurs_in rule (str (content newest)) ->
  let answered := fst (grant_permission granted (fst (poll self))) in
  poll self = request_permission rule self
  /\ _pause_flag answered = false
  /\ poll answered = request_permission rule answered
  /\ notified (fst (poll answered)) = (notified self ++ [rule; rule])%list.
Proof.
  intros Hpaused Hterm Hlogs Hrules Hbefore Hrule answered.
  assert (poll self = request_permission rule self) as Hpoll.
  { unfold poll, _monitor_loop_body, bind, get. rewrite Hterm, Hpaused.
    rewrite (check_permission_newest self older newest Hlogs), Hrules.
    by apply ask_first_match_found. }
  assert (poll answered = request_permission rule answered) as Hagain.
  { subst answered. rewrite Hpoll, request_permission_effect.
    set (answered := fst (grant_permission granted _)).
    assert (_logs answered = _logs self) as Hlogs' by reflexivity.
    assert (_conditions answered = _conditions self) as Hrules' by reflexivity.
    unfold poll, _monitor_loop_body. unfold bind at 1.
    rewrite check_termination_by_result.
    rewrite (check_termination_reads_inputs answered self Hlogs' Hrules'), Hterm.
    cbn [snd]. unfold bind, get.
    change (_pause_flag answered) with false. cbn match.
    rewrite (check_permission_newest answered older newest) by (by rewrite Hlogs').
    unfold conditions_get in *. rewrite Hrules', Hrules.
    by apply ask_first_match_found. }
  split; [exact Hpoll|]. split; [by subst answered; rewrite Hpoll|].
  split; [exact Hagain|].
  rewrite Hagain. subst answered. rewrite Hpoll, !request_permission_effect. cbn.
  by rewrite <- app_assoc.
Qed.

End Sessions.

(** ** More on the rules *)

Section Rules.

Context {Content : Type} `{!Stringify Content}.

#[local] Abbreviation Monitor := (BaseMonitor Content).
#[local] Abbreviation Entry := (LogEntry Content).

Lemma action_count_nonnegative (logs : list Entry) : 0 <= action_count logs.
Proof. unfold action_count. lia. Qed.

(** A counting rule whose threshold is exceeded stops the loop, by the
    scan or by the count. *)
Lemma counting_rule_exceeded (self : Monitor) (rule : string) (N : Z) :
  Py.startswith rule count_prefix = true ->
  threshold rule = Some N ->
  N < action_count (_logs self) ->
  exists details, check_condition rule self = terminated self rule details.
Proof.
  intros Hprefix Hlimit Hcount. rewrite check_condition_cases.
  destruct (List.find _ _) as [log|]; [by eexists|].
  rewrite counting_rule_not_loop_rule, Hprefix, Hlimit by done.
  cbn [andb]. apply Z.gtb_lt in Hcount. rewrite Hcount. by eexists.
Qed.

(** X11. A counting rule fires whenever the number of assistant entries
    of the whole log exceeds its threshold, whatever the entries contain:
    the session terminates under that rule (with an entry as evidence when
    one of the 10 most recent entries quotes the rule, without details
    otherwise). *)
Theorem counting_rule_fires_above_threshold (self : Monitor)
    (before after : list string) (rule : string) (N : Z) :
  _logs self <> [] ->
  conditions_get "terminate_if" self = (before ++ rule :: after)%list ->
  Forall (fun earlier => check_condition earlier self = (self, Ok tt)) before ->
  Py.startswith rule count_prefix = true ->
  threshold rule = Some N ->
  N < action_count (_logs self) ->
  exists details, _check_termination_conditions self = terminated self rule details.
Proof.
  intros Hlogs Hrules Hbefore Hprefix Hlimit Hcount.
  rewrite (check_termination_reaches self before after rule) by done.
  destruct (counting_rule_exceeded self rule N Hprefix Hlimit Hcount) as [details Hbody].
  exists details. by apply for_each_stops.
Qed.

(** X12. A counting rule with a negative threshold terminates the session
    at the first poll that finds the log not empty, even when it holds no
    assistant entry. *)
Theorem negative_threshold_fires_on_any_log (self : Monitor)
    (before after : list string) (rule : string) (N : Z) :
  _logs self <> [] ->
  conditions_get "terminate_if" self = (before ++ rule :: after)%list ->
  Forall (fun earlier => check_condition earlier self = (self, Ok tt)) before ->
  Py.startswith rule count_prefix = true ->
  threshold rule = Some N ->
  N < 0 ->
  exists details, _check_termination_conditions self = terminated self rule details.
Proof.
  intros Hlogs Hrules Hbefore Hprefix Hlimit Hnegative.
  rewrite (check_termination_reaches self before after rule) by done.
  pose proof (action_count_nonnegative (_logs self)) as Hcount.
  destruct (counting_rule_exceeded self rule N Hprefix Hlimit) as [details Hbody]; [lia|].
  exists details. by apply for_each_stops.
Qed.


(** The empty rule is found in every text. *)
Lemma empty_rule_hits (log : Entry) : hit "" log = true.
Proof. apply hit_occurs. exists "", (Py.lower (str (content log))). reflexivity. Qed.

(** X14. An empty rule string in [terminate_if] is found in every entry:
    reached on a log that is not empty, it terminates the session, with
    the oldest of the 10 most recent entries as evidence. *)
Theorem empty_termination_rule_fires_on_any_log (self : Monitor)
    (before after : list string) :
  _logs self <> [] ->
  conditions_get "terminate_if" self = (before ++ "" :: after)%list ->
  Forall (fun earlier => check_condition earlier self = (self, Ok tt)) before ->
  exists oldest rest,
    last_n 10 (_logs self) = oldest :: rest
    /\ _check_termination_conditions self =
       terminated self "" (Some ("Detected in log: " ++ str (content oldest))).
Proof.
  intros Hlogs Hrules Hbefore.
  rewrite (check_termination_reaches self before after "") by done.
  destruct (last_n 10 (_logs self)) as [|oldest rest] eqn:Hwindow.
  - destruct (last_n_suffix 10 (_logs self)) as [_ Hlength].
    rewrite Hwindow in Hlength. cbn [length] in Hlength.
    destruct (_logs self); [done|]. cbn [length] in Hlength. lia.
  - exists oldest, rest. split; [reflexivity|].
    apply for_each_stops. rewrite check_condition_cases, Hwindow.
    cbn [List.find]. by rewrite empty_rule_hits.
Qed.

(** X15. An empty rule string in [ask_permission_if] is found in every
    entry: unless a rule before it is found in the newest entry, the
    permission check pauses the session on any log that is not empty. *)
Theorem empty_permission_rule_pauses_on_any_log (self : Monitor)
    (older : list Entry) (newest : Entry) (before after : list string) :
  _logs self = (older ++ [newest])%list ->
  conditions_get "ask_permission_if" self = (before ++ "" :: after)%list ->
  Forall (fun earlier => ~ occurs_in earlier (str (content newest))) before ->
  _check_permission_conditions self = request_permission "" self.
Proof.
  intros Hlogs Hrules Hbefore.
  rewrite (check_permission_newest self older newest Hlogs), Hrules.
  apply ask_first_match_found; [exact Hbefore|].
  exists "", (Py.lower (str (content newest))). reflexivity.
Qed.

(** X16. The loop heuristic compares the last three actions with the
    three before them, position by position.  On a log that ends with six
    assistant entries whose contents alternate between two texts, it
    holds only when the two texts are equal: a loop of two steps is not
    detected. *)
Theorem two_step_loop_is_not_detected (self : Monitor) (older : list Entry)
    (e1 e2 e3 e4 e5 e6 : Entry) (a b : string) :
  _logs self = (older ++ [e1; e2; e3; e4; e5; e6])%list ->
  Forall (fun log => role log = "assistant") [e1; e2; e3; e4; e5; e6] ->
  (fun log => str (content log)) <$> [e1; e2; e3; e4; e5; e6] = [a; b; a; b; a; b] ->
  _detect_loop self = true <-> a = b.
Proof.
  intros Hlogs Hall [= H1 H2 H3 H4 H5 H6]. rewrite detect_loop_true. split.
  - intros (older' & f1 & f2 & f3 & f4 & f5 & f6 & Hlogs' & _ & Hfirst & _).
    rewrite Hlogs in Hlogs'.
    apply app_inj_2 in Hlogs' as [_ [= <- <- <- <- <- <-]]; [|reflexivity].
    congruence.
  - intros ->. exists older, e1, e2, e3, e4, e5, e6.
    split; [exact Hlogs|]. split; [exact Hall|]. split_and!; congruence.
Qed.

(** A log in which every action is answered never shows six assistant
    entries in a row. *)
Lemma answered_no_loop (self : Monitor) :
  answered (_logs self) -> _detect_loop self = false.
Proof.
  intros Hanswered. destruct (_detect_loop self) eqn:Hloop; [|reflexivity].
  apply detect_loop_true in Hloop
    as (older & e1 & e2 & e3 & e4 & e5 & e6 & Hlogs & Hall & _).
  apply Forall_cons in Hall as [H1 Hall]. apply Forall_cons in Hall as [H2 _].
  exfalso. apply (Hanswered (length older) e1 e2); try done.
  - rewrite Hlogs. by rewrite list_lookup_middle.
  - rewrite Hlogs. rewrite lookup_app_r by lia.
    by replace (S (length older) - length older)%nat with 1%nat by lia.
Qed.

Lemma answered_take (logs : list Entry) (k : nat) :
  answered logs -> answered (take k logs).
Proof.
  intros Hanswered i first second Hfirst Hsecond.
  apply lookup_take_Some in Hfirst as [Hfirst _].
  apply lookup_take_Some in Hsecond as [Hsecond _].
  by apply (Hanswered i).
Qed.

End Rules.

(** ** The counting rule, character by character *)

(** X17. The threshold of a counting rule is read between the first and
    the second [>] of the rule: what follows a second [>] is ignored, and
    without one the rest of the rule is read. *)
Theorem threshold_reads_up_to_second_gt (between rest : string) :
  Forall (fun c => Ascii.eqb c ">" = false) (chars between) ->
  threshold (count_prefix ++ between ++ String ">" rest) = Py.int (Py.strip between)
  /\ threshold (count_prefix ++ between) = Py.int (Py.strip between).
Proof.
  intros Hbetween. unfold threshold. split.
  - change (count_prefix ++ between ++ String ">" rest)
      with ("the number of actions is " ++ String ">" (between ++ String ">" rest)).
    rewrite split_at_sep by (repeat constructor).
    by rewrite split_at_sep.
  - change (count_prefix ++ between)
      with ("the number of actions is " ++ String ">" between).
    rewrite split_at_sep by (repeat constructor).
    by rewrite split_no_sep.
Qed.

(** ** The message of the exception *)

Lemma append_cancel_l (s t : string) : s ++ t = s -> t = "".
Proof.
  induction s as [|c s IH]; [done|].
  rewrite append_cons. intros [= H]. by apply IH.
Qed.

(** X18. The message of [TerminationConditionMet] is the line
    ["Termination condition met: "] followed by the condition, and nothing
    more, exactly when the details are [None] or the empty string: empty
    details are dropped like missing ones. *)
Theorem message_drops_empty_details (condition : string) (details : option string) :
  message (TerminationConditionMet condition details)
  = "Termination condition met: " ++ condition
  <-> details = None \/ details = Some "".
Proof.
  split.
  - destruct details as [[|c d]|]; [by right| |by left].
    cbn [message]. intros H. by apply append_cancel_l in H.
  - intros [-> | ->]; reflexivity.
Qed.

(** ** The demo driver *)

Lemma get_action_counts (chance : bool) (drawn action_count : nat) :
  fst (Demo.get_action chance drawn action_count) = S action_count.
Proof.
  unfold Demo.get_action. destruct (_ && _); [reflexivity|].
  by destruct chance.
Qed.

Lemma demo_entries_answered (rounds : list Demo.Round) (action_count step_count : nat) :
  answered (Demo.entries rounds action_count step_count).
Proof.
  revert action_count step_count.
  induction rounds as [|round rounds IH]; intros action_count step_count i first second.
  - cbn [Demo.entries]. intros Hfirst. by rewrite lookup_nil in Hfirst.
  - cbn [Demo.entries].
    destruct (Demo.get_action _ _ _) as [action_count' a].
    destruct (Demo.step _ _ _) as [step_count' o].
    destruct i as [|[|i]]; cbn [lookup list_lookup].
    + intros [= <-] [= <-] _. discriminate.
    + intros [= <-] _. discriminate.
    + apply (IH action_count' step_count' i).
Qed.

Lemma demo_entries_action (rounds : list Demo.Round) (action_count step_count i : nat)
    (round : Demo.Round) :
  rounds !! i = Some round ->
  Demo.entries rounds action_count step_count !! (2 * i)%nat =
  Some {| role := "assistant";
          content := snd (Demo.get_action (Demo.chance round) (Demo.agent_draw round)
                                          (action_count + i));
          timestamp := Demo.action_time round |}.
Proof.
  revert action_count step_count i round.
  induction rounds as [|first rounds IH]; intros action_count step_count i round; [done|].
  cbn [Demo.entries].
  pose proof (get_action_counts (Demo.chance first) (Demo.agent_draw first) action_count)
    as Hcount.
  destruct (Demo.get_action (Demo.chance first) _ action_count) as [action_count' a] eqn:Ha.
  destruct (Demo.step _ _ _) as [step_count' o].
  cbn [fst] in Hcount. subst action_count'.
  destruct i as [|i].
  - intros [= <-]. replace (action_count + 0)%nat with action_count by lia.
    by rewrite Ha.
  - intros Hround. replace (2 * S i)%nat with (S (S (2 * i))) by lia.
    pose proof (IH (S action_count) step_count' i round Hround) as Hrest.
    replace (action_count + S i)%nat with (S action_count + i)%nat by lia.
    exact Hrest.
Qed.

(** X19. The demo driver logs the answer of the environment after every
    action of the agent.  At no moment of a run, whatever the random
    draws, does the loop heuristic hold on what has been logged so far;
    and this although the actions of rounds 21 to 29 are nine times the
    same sentence, which the driver means to trigger loop detection. *)
Theorem demo_never_trips_loop_detection (rounds : list Demo.Round) :
  (forall (logged : nat) (self : BaseMonitor string),
      _logs self = take logged (Demo.entries rounds 0 0) ->
      _detect_loop self = false)
  /\ (forall (i : nat) (round : Demo.Round),
        (20 <= i < 29)%nat ->
        rounds !! i = Some round ->
        Demo.entries rounds 0 0 !! (2 * i)%nat =
        Some {| role := "assistant";
                content := "I'm stuck and don't know what to do next.";
                timestamp := Demo.action_time round |}).
Proof.
  split.
  - intros logged self Hlogs. apply answered_no_loop. rewrite Hlogs.
    apply answered_take, demo_entries_answered.
  - intros i round Hi Hround.
    rewrite (demo_entries_action rounds 0 0 i round Hround). cbn [Nat.add].
    unfold Demo.get_action.
    assert (((20 <? S i) && (S i <? 30))%nat = true) as ->; [|reflexivity].
    apply andb_true_iff. split; apply Nat.ltb_lt; lia.
Qed.

(** ** Instances of the further properties *)


Lemma no_rules_no_reaction_witness :
  conditions_get "terminate_if"
    (set_logs [entry "assistant" "rm -rf /"] (__init__ (Some ∅))) = []
  /\ conditions_get "ask_permission_if"
       (set_logs [entry "assistant" "rm -rf /"] (__init__ (Some ∅))) = []
  /\ _monitor_loop _check_termination_conditions _check_permission_conditions 5
       (set_logs [entry "assistant" "rm -rf /"] (__init__ (Some ∅)))
     = (set_logs [entry "assistant" "rm -rf /"] (__init__ (Some ∅)), Ok tt).
Proof.
  split; [reflexivity|]. split; [reflexivity|].
  apply no_rules_no_reaction; reflexivity.
Defined.

Lemma only_grant_releases_witness :
  _resume_flag paused_session = false
  /\ (forall polls, log_wait (after_polls polls paused_session) = None)
  /\ (forall condition details,
        log_wait (fst (terminate condition details paused_session)) = None)
  /\ log_wait (fst (__exit__ paused_session)) = None.
Proof.
  split; [reflexivity|]. apply only_grant_releases. reflexivity.
Defined.

Lemma calls_only_append_witness :
  rtc step rm_session
    (fst (grant_permission true (fst (poll (fst (log "assistant" "next" 0%Q rm_session))))))
  /\ (exists added,
        _logs (fst (grant_permission true
                      (fst (poll (fst (log "assistant" "next" 0%Q rm_session))))))
        = (_logs rm_session ++ added)%list)
  /\ _conditions (fst (grant_permission true
                         (fst (poll (fst (log "assistant" "next" 0%Q rm_session))))))
     = _conditions rm_session.
Proof.
  assert (rtc step rm_session
            (fst (grant_permission true
                    (fst (poll (fst (log "assistant" "next" 0%Q rm_session)))))))
    as Hcalls.
  { eapply rtc_l; [apply step_log|].
    eapply rtc_l; [apply step_poll|].
    eapply rtc_l; [apply (step_grant true)|]. apply rtc_refl. }
  split; [exact Hcalls|]. exact (calls_only_append _ _ Hcalls).
Defined.


Lemma request_permission_window_witness :
  _resume_flag (fst (grant_permission false paused_session)) = true
  /\ _permission_granted (fst (grant_permission false paused_session)) = Some false
  /\ exists waiting,
       log "assistant" "sudo reboot" 0%Q
         (set_pause_flag true
            (set_current_permission_condition (Some "sudo")
               (fst (grant_permission false paused_session))))
       = (waiting, Ok Waiting)
       /\ log_wait waiting =
          Some (waiting, Raise (TerminationConditionMet "Permission denied for: sudo" None)).
Proof.
  split; [reflexivity|]. split; [reflexivity|].
  exact (proj2 (request_permission_window (fst (grant_permission false paused_session))
                  false "sudo" "assistant" "sudo reboot" 0%Q eq_refl eq_refl)).
Defined.

Lemma reentered_monitor_terminates_again_witness :
  _check_termination_conditions facebook_session =
    terminated facebook_session "facebook.com"
      (Some "Detected in log: Let me check Facebook.com")
  /\ _termination_flag
       (fst (__enter__ (fst (__exit__ (fst (_check_termination_conditions facebook_session))))))
     = false
  /\ _logs (fst (__enter__ (fst (__exit__ (fst (_check_termination_conditions facebook_session))))))
     = _logs facebook_session
  /\ poll (fst (__enter__ (fst (__exit__ (fst (_check_termination_conditions facebook_session))))))
     = terminated
         (fst (__enter__ (fst (__exit__ (fst (_check_termination_conditions facebook_session))))))
         "facebook.com" (Some "Detected in log: Let me check Facebook.com").
Proof.
  split; [reflexivity|].
  apply (reentered_monitor_terminates_again facebook_session). reflexivity.
Defined.

Lemma answer_does_not_consume_trigger_witness :
  _pause_flag rm_session = false
  /\ _check_termination_conditions rm_session = (rm_session, Ok tt)
  /\ poll rm_session = request_permission "rm -rf" rm_session
  /\ _pause_flag (fst (grant_permission true (fst (poll rm_session)))) = false
  /\ poll (fst (grant_permission true (fst (poll rm_session))))
     = request_permission "rm -rf" (fst (grant_permission true (fst (poll rm_session))))
  /\ notified (fst (poll (fst (grant_permission true (fst (poll rm_session))))))
     = (notified rm_session ++ ["rm -rf"; "rm -rf"])%list.
Proof.
  split; [reflexivity|]. split; [reflexivity|].
  apply (answer_does_not_consume_trigger rm_session
           [entry "assistant" "sudo make install"] (entry "assistant" "I'll run rm -rf /")
           ["sudo"] ["run"] "rm -rf" true); try reflexivity.
  - constructor; [apply not_occurs_by_run; reflexivity|constructor].
  - apply occurs_by_run. reflexivity.
Defined.

Lemma counting_rule_fires_above_threshold_witness :
  _logs four_actions_session <> []
  /\ threshold "the number of actions is > 3" = Some 3
  /\ 3 < action_count (_logs four_actions_session)
  /\ exists details,
       _check_termination_conditions four_actions_session =
       terminated four_actions_session "the number of actions is > 3" details.
Proof.
  assert (_logs four_actions_session <> []) as Hlogs by discriminate.
  split; [exact Hlogs|]. split; [reflexivity|]. split; [reflexivity|].
  apply (counting_rule_fires_above_threshold four_actions_session [] []
           "the number of actions is > 3" 3 Hlogs eq_refl (List.Forall_nil _)
           eq_refl eq_refl eq_refl).
Defined.

Lemma negative_threshold_fires_on_any_log_witness :
  _logs (monitor_with ["the number of actions is > -1"] [] [entry "user" "hello"]) <> []
  /\ threshold "the number of actions is > -1" = Some (-1)
  /\ action_count
       (_logs (monitor_with ["the number of actions is > -1"] [] [entry "user" "hello"])) = 0
  /\ exists details,
       _check_termination_conditions
         (monitor_with ["the number of actions is > -1"] [] [entry "user" "hello"]) =
       terminated (monitor_with ["the number of actions is > -1"] [] [entry "user" "hello"])
         "the number of actions is > -1" details.
Proof.
  assert (_logs (monitor_with ["the number of actions is > -1"] [] [entry "user" "hello"])
          <> []) as Hlogs by discriminate.
  split; [exact Hlogs|]. split; [reflexivity|]. split; [reflexivity|].
  apply (negative_threshold_fires_on_any_log _ [] []
           "the number of actions is > -1" (-1) Hlogs eq_refl (List.Forall_nil _)
           eq_refl eq_refl eq_refl).
Defined.


Lemma empty_termination_rule_fires_on_any_log_witness :
  _logs (monitor_with [""] [] [entry "user" "hello"; entry "user" "bye"]) <> []
  /\ exists oldest rest,
       last_n 10 (_logs (monitor_with [""] [] [entry "user" "hello"; entry "user" "bye"]))
       = oldest :: rest
       /\ _check_termination_conditions
            (monitor_with [""] [] [entry "user" "hello"; entry "user" "bye"]) =
          terminated (monitor_with [""] [] [entry "user" "hello"; entry "user" "bye"])
            "" (Some ("Detected in log: " ++ str (content oldest))).
Proof.
  assert (_logs (monitor_with [""] [] [entry "user" "hello"; entry "user" "bye"]) <> [])
    as Hlogs by discriminate.
  split; [exact Hlogs|].
  apply (empty_termination_rule_fires_on_any_log _ [] [] Hlogs eq_refl (List.Forall_nil _)).
Defined.

Lemma empty_permission_rule_pauses_on_any_log_witness :
  _logs (monitor_with [] [""] [entry "user" "hello"]) = ([] ++ [entry "user" "hello"])%list
  /\ _check_permission_conditions (monitor_with [] [""] [entry "user" "hello"])
     = request_permission "" (monitor_with [] [""] [entry "user" "hello"]).
Proof.
  split; [reflexivity|].
  apply (empty_permission_rule_pauses_on_any_log
           (monitor_with [] [""] [entry "user" "hello"]) [] (entry "user" "hello") [] []
           eq_refl eq_refl (List.Forall_nil _)).
Defined.

Lemma two_step_loop_is_not_detected_witness :
  _logs (monitor_with [] []
           [entry "assistant" "A"; entry "assistant" "B"; entry "assistant" "A";
            entry "assistant" "B"; entry "assistant" "A"; entry "assistant" "B"])
  = ([] ++ [entry "assistant" "A"; entry "assistant" "B"; entry "assistant" "A";
            entry "assistant" "B"; entry "assistant" "A"; entry "assistant" "B"])%list
  /\ (_detect_loop
        (monitor_with [] []
           [entry "assistant" "A"; entry "assistant" "B"; entry "assistant" "A";
            entry "assistant" "B"; entry "assistant" "A"; entry "assistant" "B"]) = true
      <-> "A" = "B").
Proof.
  split; [reflexivity|].
  apply (two_step_loop_is_not_detected
           (monitor_with [] []
              [entry "assistant" "A"; entry "assistant" "B"; entry "assistant" "A";
               entry "assistant" "B"; entry "assistant" "A"; entry "assistant" "B"])
           [] _ _ _ _ _ _ "A" "B" eq_refl).
  - by repeat constructor.
  - reflexivity.
Defined.

Lemma threshold_reads_up_to_second_gt_witness :
  Forall (fun c => Ascii.eqb c ">" = false) (chars " 3 ")
  /\ threshold "the number of actions is > 3 > 100" = Some 3
  /\ threshold "the number of actions is > 3 " = Some 3.
Proof.
  assert (Forall (fun c => Ascii.eqb c ">" = false) (chars " 3 ")) as Hbetween
    by (repeat constructor).
  split; [exact Hbetween|].
  exact (threshold_reads_up_to_second_gt " 3 " " 100" Hbetween).
Defined.

Lemma detect_loop_few_actions_witness :
  (length (filter (fun log => role log = "assistant") (_logs three_actions_session)) < 6)%nat
  /\ _detect_loop three_actions_session = false.
Proof.
  assert (length (filter (fun log => role log = "assistant")
                         (_logs three_actions_session)) < 6)%nat as Hfew
    by (vm_compute; lia).
  split; [exact Hfew|]. exact (detect_loop_few_actions three_actions_session Hfew).
Defined.

Lemma detect_loop_last_differs_witness :
  filter (fun log => role log = "assistant")
    (_logs (monitor_with [] []
              [entry "assistant" "A"; entry "user" "ok"; entry "assistant" "B";
               entry "assistant" "C"; entry "assistant" "A"; entry "assistant" "B";
               entry "assistant" "D"]))
  = ([] ++ [entry "assistant" "A"; entry "assistant" "B"; entry "assistant" "C";
            entry "assistant" "A"; entry "assistant" "B"; entry "assistant" "D"])%list
  /\ _detect_loop
       (monitor_with [] []
          [entry "assistant" "A"; entry "user" "ok"; entry "assistant" "B";
           entry "assistant" "C"; entry "assistant" "A"; entry "assistant" "B";
           entry "assistant" "D"]) = false.
Proof.
  split; [reflexivity|].
  apply (detect_loop_last_differs
           (monitor_with [] []
              [entry "assistant" "A"; entry "user" "ok"; entry "assistant" "B";
               entry "assistant" "C"; entry "assistant" "A"; entry "assistant" "B";
               entry "assistant" "D"])
           [] (entry "assistant" "A") (entry "assistant" "B")
           (entry "assistant" "C") (entry "assistant" "A") (entry "assistant" "B")
           (entry "assistant" "D") eq_refl).
  discriminate.
Defined.
